(** * mlflowstone.run: a shallow embedding of the [Run] wrapper

    The Python class [Run] of [src/mlflowstone/run.py] is glue over an
    experiment-tracking client.  The methods that create runs and log into
    them are embedded as functions in a state-and-exception monad over a
    [World] that holds

    - the trace of calls issued to the external collaborators (tracking
      client, model flavor, pandas / pickle serialisation, [open]),
    - the set of paths present on disk,
    - the store of [dict] objects (Python passes dicts by reference, and the
      [tags={}] defaults are single objects shared by all calls),
    - the records emitted through [logger].

    What the collaborators answer (which call raises, which run id the service
    issues, what the clock reads) is an [Env] over which every theorem is
    universally quantified. *)

From Stdlib Require Import String Ascii List ZArith Lia Bool Arith.
From Stdlib Require Import DecimalString.
Import ListNotations.

Open Scope string_scope.
Open Scope list_scope.

(** ** Python strings *)

Module PyStr.

(** [sub in s] for strings. *)
Fixpoint contains (sub s : string) : bool :=
  match s with
  | EmptyString => String.prefix sub EmptyString
  | String _ s' => String.prefix sub s || contains sub s'
  end.

(** [s.replace(old, new)] for a non-empty [old]: occurrences are replaced
    left to right and do not overlap.  [skip] counts the characters of a
    matched occurrence that are still to be dropped. *)
Fixpoint replace_from (old new : string) (skip : nat) (s : string) : string :=
  match s with
  | EmptyString => EmptyString
  | String c s' =>
      match skip with
      | S k => replace_from old new k s'
      | O =>
          if String.prefix old s
          then new ++ replace_from old new (String.length old - 1) s'
          else String c (replace_from old new 0 s')
      end
  end.

Definition replace (old new s : string) : string := replace_from old new 0 s.

(** [s.split(sep)[0]] for a non-empty [sep]: what precedes the first
    occurrence of [sep], the whole string when there is none. *)
Fixpoint split_head (sep s : string) : string :=
  match s with
  | EmptyString => EmptyString
  | String c s' =>
      if String.prefix sep s then EmptyString else String c (split_head sep s')
  end.

(** [str(n)] for an integer. *)
Definition str (n : Z) : string := NilZero.string_of_int (Z.to_int n).

(** One decimal digit, and [%0kd] for a natural number below [10^k]. *)
Definition digit (n : nat) : ascii := ascii_of_nat (48 + n mod 10).

Fixpoint zero_padded (k n : nat) : string :=
  match k with
  | O => EmptyString
  | S k' => zero_padded k' (n / 10) ++ String (digit n) EmptyString
  end.

(** [os.path.join(a, b)] on POSIX paths. *)
Definition os_path_join (a b : string) : string :=
  if String.prefix "/" b then b
  else match a with
       | EmptyString => b
       | _ => if String.eqb (substring (String.length a - 1) 1 a) "/"
              then a ++ b else a ++ "/" ++ b
       end.

End PyStr.

(** ** Python values and dicts *)

(** The values that flow through the wrapper.  Floats and arbitrary objects
    (estimators, pickled data) are only passed along, so they are carried by
    an opaque token. *)
Inductive PyVal : Type :=
| VNone
| VInt (z : Z)
| VStr (s : string)
| VFloat (token : string)
| VObj (token : string).

(** A [dict] with string keys: insertion-ordered, one entry per key. *)
Definition Dict (V : Type) : Type := list (string * V).

Module PyDict.
Section Ops.
Context {V : Type}.

Fixpoint get (d : Dict V) (k : string) : option V :=
    match d with
    | [] => None
    | (k', v) :: d' => if String.eqb k' k then Some v else get d' k
    end.

  (** [d[k] = v]: an existing key keeps its position. *)
Fixpoint set (d : Dict V) (k : string) (v : V) : Dict V :=
    match d with
    | [] => [(k, v)]
    | (k', v') :: d' =>
        if String.eqb k' k then (k', v) :: d' else (k', v') :: set d' k v
    end.

Definition keys (d : Dict V) : list string := map fst d.
Definition items (d : Dict V) : list (string * V) := d.
End Ops.
End PyDict.

(** ** Exceptions *)

(** The exception classes the wrapper can meet.  [MlflowException] stands for
    the class and its subclasses (what [except MlflowException] catches);
    [OtherError cls] is an exception of a class outside that hierarchy. *)
Inductive Exn : Type :=
| MlflowException (msg : string)
| KeyError (key : string)
| IndexError
| FileExistsError (path : string)
| OtherError (cls : string).

Definition is_MlflowException (e : Exn) : bool :=
  match e with MlflowException _ => true | _ => false end.

Inductive Result (A : Type) : Type :=
| Ok (a : A)
| Raise (e : Exn).
Arguments Ok {A} a.
Arguments Raise {A} e.

(** ** Collaborators' data *)

(** [mlflow.models.model.Model(run_id=..., artifact_path=...)]. *)
Record Model : Type := { model_run_id : string; artifact_path : string }.

(** [pd.DataFrame]: named columns. *)
Definition DataFrame : Type := Dict (list PyVal).

(** The attributes of a fitted [GridSearchCV] that the wrapper reads. *)
Record GridSearchCV : Type := {
  best_index_ : Z;
  best_estimator_ : PyVal;
  cv_results_ : Dict (list PyVal);
  param_grid : Dict (list PyVal);
  cv : PyVal
}.

(** [mlflow.utils.mlflow_tags]. *)
Definition MLFLOW_PARENT_RUN_ID : string := "mlflow.parentRunId".
Definition MLFLOW_RUN_NAME : string := "mlflow.runName".

(** The service-side run entity: only [run.info.run_id] is read. *)
Record RunEntity : Type := { run_id : string }.

Module Experiment.
Record t : Type := { id : string; models_path : string }.
End Experiment.

(** ** Calls to the outside *)

(** Every call that leaves the wrapper: the tracking client's methods, the
    flavor's [save_model], and the serialisation of staged files. *)
Inductive Call : Type :=
| create_run (experiment_id : string) (tags : Dict PyVal)
| set_terminated (rid : string)
| log_param (rid key : string) (value : PyVal)
| log_metric (rid key : string) (value : PyVal)
| set_tag (rid key : string) (value : PyVal)
| log_artifact (rid local_path : string)
| log_artifacts (rid local_dir : string)
| record_logged_model (rid : string) (mlflow_model : Model)
| save_model (flavor : string) (model : PyVal) (path : string)
             (mlflow_model : Model) (kwargs : Dict PyVal)
| open_wb (path : string)
| pickle_dump (data : PyVal) (path : string)
| to_csv (df : DataFrame) (path : string).

(** A [datetime] as [datetime.now()] answers it, naive and with every field
    in its range. *)
Record datetime : Type := {
  year : nat; month : nat; day : nat;
  hour : nat; minute : nat; second : nat; microsecond : nat
}.

(** [datetime.isoformat()]: the fraction is printed only when it is not
    zero. *)
Definition isoformat (t : datetime) : string :=
  PyStr.zero_padded 4 (year t) ++ "-" ++ PyStr.zero_padded 2 (month t) ++ "-"
  ++ PyStr.zero_padded 2 (day t) ++ "T" ++ PyStr.zero_padded 2 (hour t) ++ ":"
  ++ PyStr.zero_padded 2 (minute t) ++ ":" ++ PyStr.zero_padded 2 (second t)
  ++ (if Nat.eqb (microsecond t) 0 then ""
      else "." ++ PyStr.zero_padded 6 (microsecond t)).

(** What the outside answers, as a function of the calls issued so far. *)
Record Env : Type := {
  raises : list Call -> Call -> option Exn;
  new_run_id : list Call -> string;
  now : list Call -> datetime;
  artifact_uri : string
}.

(** ** The world *)

Inductive Level : Type := INFO | WARNING.

Definition loc : Type := nat.

Record World : Type := {
  trace : list Call;
  fs : list string;
  heap : loc -> Dict PyVal;
  logs : list (Level * string)
}.

Definition M (A : Type) : Type := World -> Result A * World.

Definition ret {A} (a : A) : M A := fun w => (Ok a, w).

Definition bind {A B} (m : M A) (k : A -> M B) : M B :=
  fun w => match m w with
           | (Ok a, w') => k a w'
           | (Raise e, w') => (Raise e, w')
           end.

Definition lift {A} (r : Result A) : M A := fun w => (r, w).

Declare Scope py_scope.
Delimit Scope py_scope with py.
Notation "x <- c ;; k" := (bind c (fun x => k))
  (at level 61, c at next level, right associativity) : py_scope.
Notation "c ;; k" := (bind c (fun _ => k))
  (at level 61, right associativity) : py_scope.
Open Scope py_scope.

(** [for x in xs: body]. *)
Fixpoint for_each {A} (xs : list A) (body : A -> M unit) : M unit :=
  match xs with
  | [] => ret tt
  | x :: xs' => body x ;; for_each xs' body
  end.

(** [d[k]] and [a[i]] (negative indices count from the end). *)
Definition getitem {V} (d : Dict V) (k : string) : Result V :=
  match PyDict.get d k with
  | Some v => Ok v
  | None => Raise (KeyError k)
  end.

Definition index {V} (xs : list V) (i : Z) : Result V :=
  let n := Z.of_nat (List.length xs) in
  let j := if (i <? 0)%Z then (i + n)%Z else i in
  if ((0 <=? j) && (j <? n))%Z
  then match nth_error xs (Z.to_nat j) with
       | Some v => Ok v
       | None => Raise IndexError
       end
  else Raise IndexError.

(** *** The file system *)

Module FS.
Definition exists_ (p : string) (files : list string) : bool :=
    existsb (String.eqb p) files.

Fixpoint filler (n : nat) : string :=
    match n with O => EmptyString | S k => String "_" (filler k) end.

  (** [tempfile.mkdtemp()] returns a directory name that does not exist yet;
      the model takes one longer than every existing path. *)
Definition mkdtemp_name (files : list string) : string :=
    "/tmp/tmp" ++ filler (list_max (map String.length files)).

Definition under (root p : string) : bool :=
    String.eqb p root || String.prefix (root ++ "/") p.

  (** [shutil.rmtree(root)]. *)
Definition rmtree (root : string) (files : list string) : list string :=
    filter (fun p => negb (under root p)) files.
End FS.

Definition set_fs (files : list string) (w : World) : World :=
  {| trace := trace w; fs := files; heap := heap w; logs := logs w |}.

Definition mkdtemp : M string := fun w =>
  let d := FS.mkdtemp_name (fs w) in (Ok d, set_fs (d :: fs w) w).

Definition rmtree (root : string) : M unit := fun w =>
  (Ok tt, set_fs (FS.rmtree root (fs w)) w).

Definition os_mkdir (p : string) : M unit := fun w =>
  if FS.exists_ p (fs w) then (Raise (FileExistsError p), w)
  else (Ok tt, set_fs (p :: fs w) w).

(** *** Dict objects *)

Definition setitem (l : loc) (k : string) (v : PyVal) : M unit := fun w =>
  (Ok tt,
   {| trace := trace w; fs := fs w;
      heap := fun l' => if Nat.eqb l' l then PyDict.set (heap w l) k v
                        else heap w l';
      logs := logs w |}).

Definition deref (l : loc) : M (Dict PyVal) := fun w => (Ok (heap w l), w).

(** The default objects of the [tags={}] parameters: one dict per function,
    created when the class body is executed. *)
Definition create_tags : loc := 0.
Definition init_tags : loc := 1.
Definition start_run_tags : loc := 2.
Definition log_cross_validation_tags : loc := 3.
Definition log_cv_run_tags : loc := 4.

(** An omitted argument is bound to the function's default object. *)
Definition default (d : loc) (arg : option loc) : loc :=
  match arg with Some l => l | None => d end.

(** *** Logging *)

Definition logger (lvl : Level) (msg : string) : M unit := fun w =>
  (Ok tt,
   {| trace := trace w; fs := fs w; heap := heap w;
      logs := logs w ++ [(lvl, msg)] |}).

(** ** The class [Run] *)

(** An instance: [__init__] stores the experiment, the service-side run, its
    id and the parent (a reference, possibly [None]). *)
#[warnings="-register-all"] Inductive Run : Type :=
  Build_Run (experiment : Experiment.t) (run : RunEntity) (id : string)
            (parent : option Run).

Definition experiment (r : Run) : Experiment.t :=
  match r with Build_Run e _ _ _ => e end.
Definition run (r : Run) : RunEntity :=
  match r with Build_Run _ x _ _ => x end.
Definition id (r : Run) : string :=
  match r with Build_Run _ _ i _ => i end.
Definition parent (r : Run) : option Run :=
  match r with Build_Run _ _ _ p => p end.

(** [Run(run, experiment, parent=parent)]. *)
Definition __init__ (run : RunEntity) (experiment : Experiment.t)
    (parent : option Run) : Run :=
  Build_Run experiment run (run_id run) parent.

(** What a successful call leaves on disk. *)
Definition written (c : Call) : list string :=
  match c with
  | save_model _ _ path _ _ => [path]
  | open_wb path => [path]
  | to_csv _ path => [path]
  | _ => []
  end.

Definition issue (c : Call) (w : World) : World :=
  {| trace := trace w ++ [c]; fs := fs w; heap := heap w; logs := logs w |}.

Section Methods.
Variable env : Env.

  (** A call to a collaborator: it is issued, then it raises or succeeds as
      the environment decides. *)
Definition extern (c : Call) : M unit := fun w =>
    match raises env (trace w) c with
    | Some e => (Raise e, issue c w)
    | None => (Ok tt, set_fs (written c ++ fs w) (issue c w))
    end.

  (** [client.create_run(experiment_id, tags=tags)] answers with the run the
      service created. *)
Definition client_create_run (experiment_id : string) (tags : Dict PyVal)
      : M RunEntity := fun w =>
    match extern (create_run experiment_id tags) w with
    | (Ok _, w') => (Ok {| run_id := new_run_id env (trace w) |}, w')
    | (Raise e, w') => (Raise e, w')
    end.

Definition datetime_now : M datetime := fun w => (Ok (now env (trace w)), w).

  (** [with TempDir() as tmp: body] ([mlflow.utils.file_utils.TempDir]):
      [__enter__] makes a fresh directory, [__exit__] removes it if it still
      exists, on every exit path, and lets an exception of the body through. *)
Definition with_TempDir {A} (body : string -> M A) : M A := fun w =>
    match mkdtemp w with
    | (Ok tmp, w1) =>
        let (r, w2) := body tmp w1 in
        (r, if FS.exists_ tmp (fs w2) then set_fs (FS.rmtree tmp (fs w2)) w2
            else w2)
    | (Raise e, w1) => (Raise e, w1)
    end.

  (** [try: body except MlflowException: handler]. *)
Definition try_except_MlflowException (body handler : M unit) : M unit :=
    fun w =>
      match body w with
      | (Raise e, w') =>
          if is_MlflowException e then handler w' else (Raise e, w')
      | ok => ok
      end.

  (** *** [Run.create] (static) *)
Definition create (name : string) (experiment : Experiment.t)
      (parent : option Run) (tags : option loc) : M Run :=
    let tags := default create_tags tags in
    match parent with
    | Some p => setitem tags MLFLOW_PARENT_RUN_ID (VStr (run_id (run p)))
    | None => setitem tags MLFLOW_PARENT_RUN_ID (VInt (-1))
    end ;;
    (if Nat.ltb 0 (String.length name)
     then setitem tags MLFLOW_RUN_NAME (VStr name)
     else ret tt) ;;
    d <- deref tags ;;
    run <- client_create_run (Experiment.id experiment) d ;;
    ret (__init__ run experiment parent).

  (** *** [Run.start_run] *)
Definition start_run (self : Run) (name : option string) (tags : option loc)
      : M Run :=
    let name := match name with Some n => n | None => "" end in
    let tags := default start_run_tags tags in
    create name (experiment self) (Some self) (Some tags).

  (** *** [Run.end] *)
Definition end_ (self : Run) : M unit :=
    extern (set_terminated (id self)).

  (** *** [Run._temp_file]

      [tempfile.TemporaryDirectory()] makes a fresh directory; the object is
      dropped as soon as its [.name] is read, and its finalizer removes the
      directory; [os.mkdir] then makes it again. *)
Definition _temp_file (self : Run) (filename extension : string) : M string :=
    tempdir <- (d <- mkdtemp ;; rmtree d ;; ret d) ;;
    os_mkdir tempdir ;;
    t <- datetime_now ;;
    let timestamp :=
      PyStr.replace ":" "." (PyStr.split_head "." (isoformat t)) in
    let filename := (filename ++ "-" ++ timestamp ++ "." ++ extension)%string in
    ret (PyStr.os_path_join tempdir filename).

  (** *** [Run.log_pickle] *)
Definition log_pickle (self : Run) (data : PyVal) (filename : string)
      : M Run :=
    file_path <- _temp_file self filename "pkl" ;;
    extern (open_wb file_path) ;;
    extern (pickle_dump data file_path) ;;
    extern (log_artifact (id self) file_path) ;;
    ret self.

  (** *** [Run.log_pandas] *)
Definition log_pandas (self : Run) (df : DataFrame) (filename : string)
      : M Run :=
    csv <- _temp_file self filename "csv" ;;
    extern (to_csv df csv) ;;
    extern (log_artifact (id self) csv) ;;
    ret self.

  (** *** [Run.log_cv_run] *)
Definition log_cv_run (self : Run) (gridsearch : GridSearchCV)
      (model_name : string) (run_index : Z) (tags : option loc) : M Run :=
    let tags := default log_cv_run_tags tags in
    let cv_results := cv_results_ gridsearch in
    extern (log_param (id self) "folds" (cv gridsearch)) ;;
    logger INFO "Logging parameters" ;;
    let params := PyDict.keys (param_grid gridsearch) in
    for_each params (fun param =>
      column <- lift (getitem cv_results ("param_" ++ param)%string) ;;
      value <- lift (index column run_index) ;;
      extern (log_param (id self) param value)) ;;
    logger INFO "Logging metrics" ;;
    for_each (filter (PyStr.contains "mean_test") (PyDict.keys cv_results))
      (fun score_name =>
        column <- lift (getitem cv_results score_name) ;;
        value <- lift (index column run_index) ;;
        extern (log_metric (id self) score_name value) ;;
        let std_name := PyStr.replace "mean" "std" score_name in
        column <- lift (getitem cv_results std_name) ;;
        value <- lift (index column run_index) ;;
        extern (log_metric (id self) std_name value)) ;;
    logger INFO "Logging extra data related to the experiment" ;;
    items <- deref tags ;;
    for_each (PyDict.items items) (fun kv =>
      extern (set_tag (id self) (fst kv) (snd kv))) ;;
    ret self.

  (** *** [Run.log_model]

      The text of the warning; [mlflow.get_artifact_uri()] is read from the
      environment. *)
Definition log_model_warning : string :=
    "Logging model metadata to the tracking server has failed, possibly due older "
    ++ "server version. The model artifacts have been logged successfully under "
    ++ artifact_uri env
    ++ ". In addition to exporting model artifacts, MLflow clients 1.7.0 and above "
    ++ "attempt to record model metadata to the  tracking store. If logging to a "
    ++ "mlflow server via REST, consider  upgrading the server version to MLflow "
    ++ "1.7.0 or above.".

Definition log_model (self : Run) (model : PyVal) (name : string)
      (flavor : string) (kwargs : Dict PyVal) : M Run :=
    with_TempDir (fun tmp =>
      let local_path := PyStr.os_path_join tmp "model" in
      let mlflow_model :=
        {| model_run_id := id self;
           artifact_path := Experiment.models_path (experiment self) |} in
      extern (save_model flavor model local_path mlflow_model kwargs) ;;
      extern (log_artifacts (id self) local_path) ;;
      try_except_MlflowException
        (extern (record_logged_model (id self) mlflow_model))
        (logger WARNING log_model_warning)) ;;
    ret self.

  (** *** [Run.log_cross_validation] *)
Definition log_cross_validation (self : Run) (gridsearch : GridSearchCV)
      (model_name : string) (tags : option loc) (log_only_best : bool) : M Run :=
    let tags := default log_cross_validation_tags tags in
    let best := best_index_ gridsearch in
    logger INFO "Logging model" ;;
    log_model self (best_estimator_ gridsearch) model_name "mlflow.sklearn" [] ;;
    logger INFO "Logging CV results matrix" ;;
    log_pandas self (cv_results_ gridsearch) "cv_results" ;;
    (if log_only_best then
       child <- start_run self (Some (PyStr.str best)) None ;;
       child <- log_cv_run child gridsearch model_name best (Some tags) ;;
       end_ child
     else
       params <- lift (getitem (cv_results_ gridsearch) "params") ;;
       for_each (seq 0 (List.length params)) (fun i =>
         child <- start_run self (Some (PyStr.str best)) None ;;
         child <- log_cv_run child gridsearch model_name (Z.of_nat i)
                    (Some tags) ;;
         end_ child)) ;;
    ret self.

End Methods.

(** ** Concrete fixtures

    A tracking service that never fails, an empty world, an experiment, a
    root run and two sweep results; used to run the embedding. *)
Module Fixture.

#[warnings="-abstract-large-number"]
  Definition clock : datetime :=
    {| year := 2021; month := 3; day := 9;
       hour := 14; minute := 5; second := 7; microsecond := 123456 |}.

Definition quiet : Env :=
    {| raises := fun _ _ => None;
       new_run_id := fun tr => ("run" ++ PyStr.str (Z.of_nat (List.length tr)))%string;
       now := fun _ => clock;
       artifact_uri := "file:///mlruns" |}.

  (** The same service, except that one given call raises. *)
Definition call_eqb_tag (a b : Call) : bool :=
    match a, b with
    | create_run _ _, create_run _ _
    | set_terminated _, set_terminated _
    | log_param _ _ _, log_param _ _ _
    | log_metric _ _ _, log_metric _ _ _
    | set_tag _ _ _, set_tag _ _ _
    | log_artifact _ _, log_artifact _ _
    | log_artifacts _ _, log_artifacts _ _
    | record_logged_model _ _, record_logged_model _ _
    | save_model _ _ _ _ _, save_model _ _ _ _ _
    | open_wb _, open_wb _
    | pickle_dump _ _, pickle_dump _ _
    | to_csv _ _, to_csv _ _ => true
    | _, _ => false
    end.

Definition failing (kind : Call) (e : Exn) : Env :=
    {| raises := fun _ c => if call_eqb_tag kind c then Some e else None;
       new_run_id := new_run_id quiet;
       now := now quiet;
       artifact_uri := artifact_uri quiet |}.

Definition w0 : World :=
    {| trace := []; fs := ["/tmp"]; heap := fun _ => []; logs := [] |}.

Definition exp : Experiment.t :=
    {| Experiment.id := "7"; Experiment.models_path := "/exp" |}.

Definition root : Run := __init__ {| run_id := "r1" |} exp None.

  (** A sweep over [C] in [{1, 10}], scored by the default scorer. *)
Definition sweep : GridSearchCV :=
    {| best_index_ := 1;
       best_estimator_ := VObj "SVC(C=10)";
       cv_results_ :=
         [ ("mean_fit_time", [VFloat "0.01"; VFloat "0.02"]);
           ("param_C", [VInt 1; VInt 10]);
           ("params", [VObj "{'C': 1}"; VObj "{'C': 10}"]);
           ("mean_test_score", [VFloat "0.8"; VFloat "0.9"]);
           ("std_test_score", [VFloat "0.05"; VFloat "0.03"]);
           ("rank_test_score", [VInt 2; VInt 1]) ];
       param_grid := [ ("C", [VInt 1; VInt 10]) ];
       cv := VInt 5 |}.

  (** The same sweep scored with [scoring={'mean_squared_error': ...}]:
      scikit-learn names the columns [mean_test_<scorer>] and
      [std_test_<scorer>]. *)
Definition sweep_mse : GridSearchCV :=
    {| best_index_ := 1;
       best_estimator_ := VObj "SVR(C=10)";
       cv_results_ :=
         [ ("param_C", [VInt 1; VInt 10]);
           ("params", [VObj "{'C': 1}"; VObj "{'C': 10}"]);
           ("mean_test_mean_squared_error", [VFloat "0.8"; VFloat "0.9"]);
           ("std_test_mean_squared_error", [VFloat "0.05"; VFloat "0.03"]);
           ("rank_test_mean_squared_error", [VInt 2; VInt 1]) ];
       param_grid := [ ("C", [VInt 1; VInt 10]) ];
       cv := VInt 5 |}.

End Fixture.

(** ** Vocabulary of the statements *)

(** No character of [s] is [c]. *)
Fixpoint no_char (c : ascii) (s : string) : bool :=
  match s with
  | EmptyString => true
  | String a s' => negb (Ascii.eqb a c) && no_char c s'
  end.

(** The time stamp of a staged file as the interface describes it: the
    ISO-8601 date and time down to the second, [YYYY-MM-DDTHH.MM.SS], with
    dots where ISO-8601 has colons. *)
Definition iso_seconds_dotted (t : datetime) : string :=
  PyStr.zero_padded 4 (year t) ++ "-" ++ PyStr.zero_padded 2 (month t) ++ "-"
  ++ PyStr.zero_padded 2 (day t) ++ "T" ++ PyStr.zero_padded 2 (hour t) ++ "."
  ++ PyStr.zero_padded 2 (minute t) ++ "." ++ PyStr.zero_padded 2 (second t).

(** The name of a staged file: [<basename>-<timestamp>.<extension>]. *)
Definition staged_name (basename : string) (t : datetime) (extension : string)
    : string :=
  basename ++ "-" ++ iso_seconds_dotted t ++ "." ++ extension.


(** Kinds of requests to the tracking service. *)
Definition is_create_run (c : Call) : bool :=
  match c with create_run _ _ => true | _ => false end.
Definition is_set_terminated (c : Call) : bool :=
  match c with set_terminated _ => true | _ => false end.
Definition is_log_param (c : Call) : bool :=
  match c with log_param _ _ _ => true | _ => false end.
Definition is_log_metric (c : Call) : bool :=
  match c with log_metric _ _ _ => true | _ => false end.
Definition is_set_tag (c : Call) : bool :=
  match c with set_tag _ _ _ => true | _ => false end.

Definition count (kind : Call -> bool) (calls : list Call) : nat :=
  List.length (filter kind calls).

(** [cv_results[key][i]]. *)
Definition cell (cv_results : Dict (list PyVal)) (key : string) (i : Z)
    : Result PyVal :=
  match getitem cv_results key with
  | Ok column => index column i
  | Raise e => Raise e
  end.

(** The requests by which candidate [i] of a sweep is logged into run [rid]:
    the fold count; per hyperparameter of the grid, its value for the
    candidate; per score column whose name contains [mean_test], the mean and
    the column found by writing [std] for [mean] in its name; per tag, the
    tag. *)
Definition param_calls (rid : string) (gs : GridSearchCV) (i : Z)
    (param : string) (calls : list Call) : Prop :=
  exists v, cell (cv_results_ gs) ("param_" ++ param)%string i = Ok v
            /\ calls = [log_param rid param v].

Definition metric_calls (rid : string) (gs : GridSearchCV) (i : Z)
    (score_name : string) (calls : list Call) : Prop :=
  exists m s,
    cell (cv_results_ gs) score_name i = Ok m
    /\ cell (cv_results_ gs) (PyStr.replace "mean" "std" score_name) i = Ok s
    /\ calls = [log_metric rid score_name m;
                log_metric rid (PyStr.replace "mean" "std" score_name) s].

Definition tag_calls (rid : string) (kv : string * PyVal) (calls : list Call)
    : Prop :=
  calls = [set_tag rid (fst kv) (snd kv)].

Definition cv_run_calls (rid : string) (gs : GridSearchCV) (i : Z)
    (tags : Dict PyVal) (calls : list Call) : Prop :=
  exists ps ms ts,
    calls = log_param rid "folds" (cv gs)
            :: List.concat ps ++ List.concat ms ++ List.concat ts
    /\ Forall2 (param_calls rid gs i) (PyDict.keys (param_grid gs)) ps
    /\ Forall2 (metric_calls rid gs i)
         (filter (PyStr.contains "mean_test") (PyDict.keys (cv_results_ gs)))
         ms
    /\ Forall2 (tag_calls rid) tags ts.

(** From [w] to [w'] the requests [calls] were issued, and neither the disk
    nor any dict changed. *)
Definition only_calls (w w' : World) (calls : list Call) : Prop :=
  trace w' = trace w ++ calls /\ fs w' = fs w /\ heap w' = heap w.

(** The requests of one child run of a sweep, issued after [before]: the
    service is asked for a run whose tags name it [name] and give [self] as
    its parent; candidate [i] is logged into the run the service answered
    with; that run is ended. *)
Definition child_block (env : Env) (self : Run) (gs : GridSearchCV)
    (name : string) (i : Z) (before block : list Call) : Prop :=
  exists d calls entries,
    block = create_run (Experiment.id (experiment self)) d
            :: calls ++ [set_terminated (new_run_id env before)]
    /\ PyDict.get d MLFLOW_RUN_NAME = Some (VStr name)
    /\ PyDict.get d MLFLOW_PARENT_RUN_ID = Some (VStr (run_id (run self)))
    /\ cv_run_calls (new_run_id env before) gs i entries calls.

(** One such block per candidate index, one after the other. *)
Inductive child_blocks (env : Env) (self : Run) (gs : GridSearchCV)
    (name : string) : list Call -> list Z -> list (list Call) -> Prop :=
| child_blocks_nil before : child_blocks env self gs name before [] []
| child_blocks_cons before i rest block blocks :
    child_block env self gs name i before block ->
    child_blocks env self gs name (before ++ block) rest blocks ->
    child_blocks env self gs name before (i :: rest) (block :: blocks).

(** What [log_cross_validation] requests before it turns to the child runs:
    the best estimator is saved, uploaded and recorded, the results matrix is
    written and uploaded. *)
Definition sweep_preamble (env : Env) (self : Run) (gs : GridSearchCV)
    (w : World) : list Call :=
  let tmp := FS.mkdtemp_name (fs w) in
  let local_path := PyStr.os_path_join tmp "model" in
  let mlflow_model :=
    {| model_run_id := id self;
       artifact_path := Experiment.models_path (experiment self) |} in
  let csv := PyStr.os_path_join tmp
               (staged_name "cv_results"
                  (now env (trace w ++
                     [save_model "mlflow.sklearn" (best_estimator_ gs)
                        local_path mlflow_model [];
                      log_artifacts (id self) local_path;
                      record_logged_model (id self) mlflow_model])) "csv") in
  [save_model "mlflow.sklearn" (best_estimator_ gs) local_path mlflow_model [];
   log_artifacts (id self) local_path;
   record_logged_model (id self) mlflow_model;
   to_csv (cv_results_ gs) csv;
   log_artifact (id self) csv].

(** ** Queries: [childs], [list_artifacts], [full_path] *)

(** [pathlib.PurePosixPath]: a root ([""], ["/"] or ["//"]) and the
    components below it.  Parsing drops empty and ["."] components; joining
    with an absolute path answers that path. *)
Module PurePath.

Record t : Type := { root : string; parts : list string }.

(** [s.split("/")]. *)
Fixpoint components (s : string) : list string :=
  match s with
  | EmptyString => [EmptyString]
  | String c s' =>
      if Ascii.eqb c "/" then EmptyString :: components s'
      else match components s' with
           | [] => [String c EmptyString]
           | x :: xs => String c x :: xs
           end
  end.

Definition kept (component : string) : bool :=
  negb (String.eqb component "") && negb (String.eqb component ".").

(** [PurePosixPath(s)]: exactly two leading slashes are a root of their
    own. *)
Definition parse (s : string) : t :=
  {| root := if String.prefix "//" s && negb (String.prefix "///" s) then "//"
             else if String.prefix "/" s then "/" else "";
     parts := filter kept (components s) |}.

(** [p / q]. *)
Definition joinpath (p q : t) : t :=
  if String.eqb (root q) "" then {| root := root p; parts := parts p ++ parts q |}
  else q.

(** [str(p)]. *)
Definition to_string (p : t) : string :=
  match parts p with
  | [] => if String.eqb (root p) "" then "." else root p
  | _ => root p ++ String.concat "/" (parts p)
  end.

End PurePath.

(** What may stand right of [/]: a [str] or a path object. *)
Inductive PathLike : Type :=
| Str (s : string)
| PathObj (p : PurePath.t).

Definition as_path (x : PathLike) : PurePath.t :=
  match x with Str s => PurePath.parse s | PathObj p => p end.

(** [mlflow.entities.FileInfo(path, is_dir, file_size)]. *)
Module FileInfo.
Record t : Type := { path : PathLike; is_dir : bool; file_size : option Z }.
End FileInfo.

(** What the tracking service answers to the two read-only requests of the
    class, at the time they are made. *)
Record Service : Type := {
  search_runs : string -> string -> Result (list RunEntity);
  client_list_artifacts : string -> Result (list FileInfo.t)
}.

(** *** [Run.full_path]

    [experiment.models_path] is a path object; the record of the experiment
    keeps its [str], from which it is rebuilt. *)
Definition full_path (self : Run) (filename : string + FileInfo.t)
    : PurePath.t :=
  let filename :=
    match filename with
    | inr fi => FileInfo.path fi
    | inl s => Str s
    end in
  PurePath.joinpath
    (PurePath.joinpath
       (PurePath.joinpath
          (PurePath.parse (Experiment.models_path (experiment self)))
          (PurePath.parse (id self)))
       (PurePath.parse "artifacts"))
    (as_path filename).

(** *** [Run.list_artifacts] ([full] is the parameter [full_path]) *)
Definition list_artifacts (svc : Service) (self : Run) (full : bool)
    : Result (list FileInfo.t) :=
  match client_list_artifacts svc (id self) with
  | Raise e => Raise e
  | Ok artifacts =>
      if full
      then Ok (map (fun fi =>
                      {| FileInfo.path := PathObj (full_path self (inr fi));
                         FileInfo.is_dir := FileInfo.is_dir fi;
                         FileInfo.file_size := FileInfo.file_size fi |})
                 artifacts)
      else Ok artifacts
  end.

(** *** [Run.childs] *)
Definition childs (svc : Service) (self : Run) : Result (list Run) :=
  match search_runs svc (Experiment.id (experiment self))
          ("tags.mlflow.parentRunId = '" ++ id self ++ "'") with
  | Raise e => Raise e
  | Ok runs => Ok (map (fun run => __init__ run (experiment self) None) runs)
  end.

(** ** Vocabulary of the further statements *)

(** Whatever the outcome, [m] only adds requests that satisfy [P]. *)
Definition issues_only {A} (P : Call -> bool) (m : M A) : Prop :=
  forall w, exists calls,
    trace (snd (m w)) = trace w ++ calls /\ forallb P calls = true.

(** Whatever the outcome, [m] leaves the disk and every dict as they are. *)
Definition keeps_state {A} (m : M A) : Prop :=
  forall w, fs (snd (m w)) = fs w /\ heap (snd (m w)) = heap w.

(** A request that logs a parameter, a metric or a tag into run [rid]. *)
Definition logs_into (rid : string) (c : Call) : bool :=
  match c with
  | log_param r _ _ | log_metric r _ _ | set_tag r _ _ => String.eqb r rid
  | _ => false
  end.


(** A request made to stage and upload for run [rid]: the flavor and the
    serialisers at work, or an upload or a model record addressed to [rid]. *)
Definition stages_for (rid : string) (c : Call) : bool :=
  match c with
  | log_artifact r _ | log_artifacts r _ | record_logged_model r _ =>
      String.eqb r rid
  | save_model _ _ _ _ _ | open_wb _ | pickle_dump _ _ | to_csv _ _ => true
  | _ => false
  end.

(** [id] is what [__init__] made it: the id of the service-side run. *)
Definition consistent (r : Run) : Prop := id r = run_id (run r).

(** * Properties *)

(** ** Strings: the embedding on concrete inputs *)

Example contains_mean_test :
  PyStr.contains "mean_test" "mean_test_score" = true
  /\ PyStr.contains "mean_test" "std_test_score" = false
  /\ PyStr.contains "mean_test" "rank_mean_test" = true.
Proof. repeat split; reflexivity. Qed.

Example replace_mean_std :
  PyStr.replace "mean" "std" "mean_test_score" = "std_test_score"
  /\ PyStr.replace "aa" "b" "aaa" = "ba"
  /\ PyStr.replace ":" "." "12:30:05" = "12.30.05".
Proof. repeat split; reflexivity. Qed.

Example str_examples :
  PyStr.str 0 = "0" /\ PyStr.str 17 = "17" /\ PyStr.str (-3) = "-3".
Proof. repeat split; reflexivity. Qed.

Example os_path_join_examples :
  PyStr.os_path_join "/tmp/d" "x.csv" = "/tmp/d/x.csv"
  /\ PyStr.os_path_join "/tmp/d/" "x.csv" = "/tmp/d/x.csv"
  /\ PyStr.os_path_join "/tmp/d" "/abs" = "/abs".
Proof. repeat split; reflexivity. Qed.

(** ** Dicts *)

Lemma get_set_same {V} (d : Dict V) k v : PyDict.get (PyDict.set d k v) k = Some v.
Proof.
  induction d as [|[k' v'] d IH]; simpl.
  - now rewrite String.eqb_refl.
  - destruct (String.eqb k' k) eqn:E; simpl; rewrite E; auto.
Qed.

Lemma get_set_other {V} (d : Dict V) k k' v :
  k <> k' -> PyDict.get (PyDict.set d k v) k' = PyDict.get d k'.
Proof.
  intros Hne. induction d as [|[k0 v0] d IH]; simpl.
  - destruct (String.eqb_spec k k'); congruence.
  - destruct (String.eqb_spec k0 k) as [->|Hk]; simpl.
    + destruct (String.eqb_spec k k'); congruence.
    + now rewrite IH.
Qed.

Lemma tag_keys_differ : MLFLOW_PARENT_RUN_ID <> MLFLOW_RUN_NAME.
Proof. discriminate. Qed.

(** ** The monad *)

Lemma bind_Ok {A B} (m : M A) (k : A -> M B) w b w' :
  bind m k w = (Ok b, w') ->
  exists a w1, m w = (Ok a, w1) /\ k a w1 = (Ok b, w').
Proof.
  unfold bind. destruct (m w) as [[a|e] w1]; intros H.
  - now exists a, w1.
  - discriminate.
Qed.

Lemma ret_Ok {A} (a b : A) w w' : ret a w = (Ok b, w') -> b = a /\ w' = w.
Proof. unfold ret. intros H. now inversion H. Qed.

Lemma lift_Ok {A} (r : Result A) a w w' :
  lift r w = (Ok a, w') -> r = Ok a /\ w' = w.
Proof. unfold lift. intros H. now inversion H. Qed.

Lemma logger_Ok lvl msg u w w' :
  logger lvl msg w = (Ok u, w') ->
  trace w' = trace w /\ fs w' = fs w /\ heap w' = heap w
  /\ logs w' = logs w ++ [(lvl, msg)].
Proof. unfold logger. intros H. inversion H; subst. now simpl. Qed.

Lemma extern_Ok env c u w w' :
  extern env c w = (Ok u, w') ->
  raises env (trace w) c = None
  /\ trace w' = trace w ++ [c] /\ fs w' = written c ++ fs w
  /\ heap w' = heap w /\ logs w' = logs w.
Proof.
  unfold extern. destruct (raises env (trace w) c); intros H; inversion H; subst.
  now simpl.
Qed.

Lemma extern_trace env c w : trace (snd (extern env c w)) = trace w ++ [c].
Proof. unfold extern. now destruct (raises env (trace w) c). Qed.

(** Inversion of a successful run, one bind at a time. *)
Ltac inv_ok :=
  repeat match goal with
  | H : bind _ _ _ = (Ok _, _) |- _ =>
      let a := fresh "a" in let w := fresh "w" in
      let H1 := fresh "H" in let H2 := fresh "H" in
      apply bind_Ok in H; destruct H as (a & w & H1 & H2)
  | H : (let _ := _ in _) _ = (Ok _, _) |- _ => cbv zeta in H
  | H : ret _ _ = (Ok _, _) |- _ => apply ret_Ok in H; destruct H; subst
  | H : lift _ _ = (Ok _, _) |- _ => apply lift_Ok in H; destruct H; subst
  end.

(** ** [Run.create]: the tag set handed to the service *)

(** The value [create] stores under the parent-reference tag: the parent's
    run id, or the sentinel [-1] for a run without parent. *)
Lemma create_issues env name experiment parent tags w :
  let l := default create_tags tags in
  let pv := match parent with
            | Some p => VStr (run_id (run p))
            | None => VInt (-1)
            end in
  let d := if Nat.ltb 0 (String.length name)
           then PyDict.set (PyDict.set (heap w l) MLFLOW_PARENT_RUN_ID pv)
                  MLFLOW_RUN_NAME (VStr name)
           else PyDict.set (heap w l) MLFLOW_PARENT_RUN_ID pv in
  let w' := snd (create env name experiment parent tags w) in
  trace w' = trace w ++ [create_run (Experiment.id experiment) d]
  /\ heap w' l = d
  /\ (forall l', l' <> l -> heap w' l' = heap w l')
  /\ fs w' = fs w /\ logs w' = logs w.
Proof.
  unfold create, bind, client_create_run, extern, deref, setitem, ret.
  destruct parent as [p|]; destruct (Nat.ltb 0 (String.length name)); simpl;
    rewrite ?Nat.eqb_refl;
    match goal with
    | |- context [raises env ?t ?c] => destruct (raises env t c)
    end; simpl; rewrite ?Nat.eqb_refl;
    (repeat split; auto; intros l' Hl';
     apply Nat.eqb_neq in Hl'; now rewrite ?Hl').
Qed.

(** C7. Whatever the name, the experiment, the tags argument and the
    answer of the service, [create] issues exactly one [create_run] request,
    and the tag set of that request already holds the parent-reference tag:
    the parent's run id when a parent is given, the sentinel [-1] when
    none is. *)
Theorem create_sets_parent_tag env name experiment parent tags w :
  exists d,
    trace (snd (create env name experiment parent tags w))
    = trace w ++ [create_run (Experiment.id experiment) d]
    /\ PyDict.get d MLFLOW_PARENT_RUN_ID
       = Some (match parent with
               | Some p => VStr (run_id (run p))
               | None => VInt (-1)
               end).
Proof.
  destruct (create_issues env name experiment parent tags w) as (Ht & _).
  eexists. split; [exact Ht|].
  destruct (Nat.ltb 0 (String.length name)).
  - rewrite get_set_other by (intro E; symmetry in E; now apply tag_keys_differ).
    apply get_set_same.
  - apply get_set_same.
Qed.

(** C8. The tag set of the [create_run] request holds the run-name tag with
    the given name when the name is not empty; for an empty name [create]
    writes the parent-reference tag only, so the request carries the
    run-name entry of the incoming mapping, if it had one, unchanged. *)
Theorem create_sets_run_name_tag env name experiment parent tags w :
  exists d,
    trace (snd (create env name experiment parent tags w))
    = trace w ++ [create_run (Experiment.id experiment) d]
    /\ match name with
       | String _ _ => PyDict.get d MLFLOW_RUN_NAME = Some (VStr name)
       | EmptyString =>
           PyDict.get d MLFLOW_RUN_NAME
           = PyDict.get (heap w (default create_tags tags)) MLFLOW_RUN_NAME
           /\ exists pv,
               d = PyDict.set (heap w (default create_tags tags))
                     MLFLOW_PARENT_RUN_ID pv
       end.
Proof.
  destruct (create_issues env name experiment parent tags w) as (Ht & _).
  eexists. split; [exact Ht|].
  destruct name as [|c name]; simpl.
  - split; [apply get_set_other, tag_keys_differ | eexists; reflexivity].
  - apply get_set_same.
Qed.

(** ** The shared [tags={}] defaults *)

Lemma start_run_issues env self name tags w :
  let l := default start_run_tags tags in
  let n := match name with Some n => n | None => EmptyString end in
  let pv := VStr (run_id (run self)) in
  let d := if Nat.ltb 0 (String.length n)
           then PyDict.set (PyDict.set (heap w l) MLFLOW_PARENT_RUN_ID pv)
                  MLFLOW_RUN_NAME (VStr n)
           else PyDict.set (heap w l) MLFLOW_PARENT_RUN_ID pv in
  let w' := snd (start_run env self name tags w) in
  trace w' = trace w ++ [create_run (Experiment.id (experiment self)) d]
  /\ heap w' l = d
  /\ (forall l', l' <> l -> heap w' l' = heap w l')
  /\ fs w' = fs w /\ logs w' = logs w.
Proof.
  unfold start_run.
  exact (create_issues env _ (experiment self) (Some self)
           (Some (default start_run_tags tags)) w).
Qed.

Lemma nonempty_length (s : string) : s <> EmptyString -> Nat.ltb 0 (String.length s) = true.
Proof. destruct s; [congruence | reflexivity]. Qed.

(** C6. [create] and [start_run] write into the mapping they receive: after
    the call that mapping holds the parent-reference tag, and the run-name
    tag of a non-empty name.  When the argument is omitted the mapping is the
    function's one default object, so a later call that omits it too, made
    in any world where that object is as the first call left it, sends the
    first call's run name to the service although it was given no name. *)
Theorem default_tags_leak_across_calls env name1 e1 p1 e2 p2 self1 self2
    tags w w2 :
  name1 <> EmptyString ->
  (* the received mapping is mutated *)
  (let l := default create_tags tags in
   let w1 := snd (create env name1 e1 p1 tags w) in
   PyDict.get (heap w1 l) MLFLOW_RUN_NAME = Some (VStr name1)
   /\ PyDict.get (heap w1 l) MLFLOW_PARENT_RUN_ID
      = Some (match p1 with
              | Some p => VStr (run_id (run p))
              | None => VInt (-1)
              end))
  /\ (let l := default start_run_tags tags in
      let w1 := snd (start_run env self1 (Some name1) tags w) in
      PyDict.get (heap w1 l) MLFLOW_RUN_NAME = Some (VStr name1)
      /\ PyDict.get (heap w1 l) MLFLOW_PARENT_RUN_ID
         = Some (VStr (run_id (run self1))))
  (* the default object carries the entries over to later calls *)
  /\ (heap w2 create_tags
      = heap (snd (create env name1 e1 p1 None w)) create_tags ->
      exists d,
        trace (snd (create env EmptyString e2 p2 None w2))
        = trace w2 ++ [create_run (Experiment.id e2) d]
        /\ PyDict.get d MLFLOW_RUN_NAME = Some (VStr name1))
  /\ (heap w2 start_run_tags
      = heap (snd (start_run env self1 (Some name1) None w)) start_run_tags ->
      exists d,
        trace (snd (start_run env self2 None None w2))
        = trace w2 ++ [create_run (Experiment.id (experiment self2)) d]
        /\ PyDict.get d MLFLOW_RUN_NAME = Some (VStr name1)).
Proof.
  intros Hname. pose proof (nonempty_length _ Hname) as Hlen.
  assert (Hne : MLFLOW_RUN_NAME <> MLFLOW_PARENT_RUN_ID) by discriminate.
  repeat split.
  - destruct (create_issues env name1 e1 p1 tags w) as (_ & Hh & _).
    cbv zeta in Hh. rewrite Hh, Hlen. apply get_set_same.
  - destruct (create_issues env name1 e1 p1 tags w) as (_ & Hh & _).
    cbv zeta in Hh. rewrite Hh, Hlen.
    rewrite get_set_other by exact Hne. apply get_set_same.
  - destruct (start_run_issues env self1 (Some name1) tags w) as (_ & Hh & _).
    cbv zeta in Hh. rewrite Hh, Hlen. apply get_set_same.
  - destruct (start_run_issues env self1 (Some name1) tags w) as (_ & Hh & _).
    cbv zeta in Hh. rewrite Hh, Hlen.
    rewrite get_set_other by exact Hne. apply get_set_same.
  - intros Hw2.
    destruct (create_issues env name1 e1 p1 None w) as (_ & Hh & _).
    destruct (create_issues env EmptyString e2 p2 None w2) as (Ht & _).
    cbv zeta in Hh, Ht. simpl default in *. simpl Nat.ltb in Ht.
    eexists. split; [exact Ht|].
    rewrite get_set_other by (intro E; now apply Hne).
    rewrite Hw2, Hh, Hlen. apply get_set_same.
  - intros Hw2.
    destruct (start_run_issues env self1 (Some name1) None w) as (_ & Hh & _).
    destruct (start_run_issues env self2 None None w2) as (Ht & _).
    cbv zeta in Hh, Ht. simpl default in *. simpl Nat.ltb in Ht.
    eexists. split; [exact Ht|].
    rewrite get_set_other by (intro E; now apply Hne).
    rewrite Hw2, Hh, Hlen. apply get_set_same.
Qed.

(** Two runs started one after the other from the root run, the second one
    without a name: the service is asked to name it after the first. *)
Lemma default_tags_leak_across_calls_witness :
  exists d,
    trace (snd (start_run Fixture.quiet Fixture.root None None
                 (snd (start_run Fixture.quiet Fixture.root (Some "baseline")
                         None Fixture.w0))))
    = [create_run "7" [("mlflow.parentRunId", VStr "r1");
                       ("mlflow.runName", VStr "baseline")];
       create_run "7" d]
    /\ PyDict.get d MLFLOW_RUN_NAME = Some (VStr "baseline").
Proof.
  destruct (default_tags_leak_across_calls Fixture.quiet "baseline"
              Fixture.exp None Fixture.exp None Fixture.root Fixture.root None
              Fixture.w0
              (snd (start_run Fixture.quiet Fixture.root (Some "baseline")
                      None Fixture.w0)))
    as (_ & _ & _ & H); [discriminate|].
  destruct (H eq_refl) as (d & Ht & Hd).
  exists d. split; [exact Ht | exact Hd].
Defined.

(** ** [Run.log_model]: which errors reach the caller *)

(** C2. [log_model] issues [save_model], then [log_artifacts], then
    [_record_logged_model].  An error raised by the first or the second
    reaches the caller, whatever its class.  An error raised by the third
    reaches the caller unless it is an [MlflowException]; an
    [MlflowException] raised there is answered by one warning record and the
    call returns [self].  When none of the three raises the call returns
    [self] and logs nothing. *)
Theorem log_model_swallows_only_MlflowException
    env self model name flavor kwargs w e :
  let local_path := PyStr.os_path_join (FS.mkdtemp_name (fs w)) "model" in
  let mlflow_model :=
    {| model_run_id := id self;
       artifact_path := Experiment.models_path (experiment self) |} in
  let save := save_model flavor model local_path mlflow_model kwargs in
  let upload := log_artifacts (id self) local_path in
  let record := record_logged_model (id self) mlflow_model in
  let out := log_model env self model name flavor kwargs w in
  (raises env (trace w) save = Some e -> fst out = Raise e)
  /\ (raises env (trace w) save = None ->
      raises env (trace w ++ [save]) upload = Some e -> fst out = Raise e)
  /\ (raises env (trace w) save = None ->
      raises env (trace w ++ [save]) upload = None ->
      raises env ((trace w ++ [save]) ++ [upload]) record = Some e ->
      if is_MlflowException e
      then fst out = Ok self
           /\ logs (snd out) = logs w ++ [(WARNING, log_model_warning env)]
      else fst out = Raise e)
  /\ (raises env (trace w) save = None ->
      raises env (trace w ++ [save]) upload = None ->
      raises env ((trace w ++ [save]) ++ [upload]) record = None ->
      fst out = Ok self /\ logs (snd out) = logs w).
Proof.
  cbv zeta.
  unfold log_model, bind, with_TempDir, mkdtemp, try_except_MlflowException,
    extern, logger, ret.
  simpl.
  split; [|split; [|split]].
  - intros ->. reflexivity.
  - intros -> H. simpl. rewrite H. reflexivity.
  - intros -> H1 H2. simpl. rewrite H1. simpl. rewrite H2.
    destruct (is_MlflowException e); simpl.
    + split; [reflexivity|].
      match goal with
      | |- context [if ?b then _ else _] => destruct b
      end; reflexivity.
    + reflexivity.
  - intros -> H1 H2. simpl. rewrite H1. simpl. rewrite H2. simpl.
    split; [reflexivity|].
    match goal with
    | |- context [if ?b then _ else _] => destruct b
    end; reflexivity.
Qed.

Lemma log_model_swallows_only_MlflowException_witness :
  let env := Fixture.failing
               (record_logged_model "" {| model_run_id := ""; artifact_path := "" |})
               (MlflowException "INVALID_PARAMETER_VALUE") in
  let out := log_model env Fixture.root (VObj "SVC(C=10)") "svc"
               "mlflow.sklearn" [] Fixture.w0 in
  fst out = Ok Fixture.root
  /\ logs (snd out) = [(WARNING, log_model_warning env)].
Proof.
  cbv zeta.
  destruct (log_model_swallows_only_MlflowException
              (Fixture.failing
                 (record_logged_model "" {| model_run_id := ""; artifact_path := "" |})
                 (MlflowException "INVALID_PARAMETER_VALUE"))
              Fixture.root (VObj "SVC(C=10)") "svc" "mlflow.sklearn" []
              Fixture.w0 (MlflowException "INVALID_PARAMETER_VALUE"))
    as (_ & _ & H & _).
  exact (H eq_refl eq_refl eq_refl).
Defined.

(** ** The time stamp of staged files *)

Lemma append_assoc (a b c : string) :
  ((a ++ b) ++ c)%string = (a ++ (b ++ c))%string.
Proof. induction a as [|x a IH]; simpl; [reflexivity | now rewrite IH]. Qed.

Lemma no_char_app c a b :
  no_char c (a ++ b)%string = no_char c a && no_char c b.
Proof.
  induction a as [|x a IH]; simpl; [reflexivity|].
  now rewrite IH, andb_assoc.
Qed.

Lemma digit_cases n :
  exists m, m < 10 /\ PyStr.digit n = ascii_of_nat (48 + m).
Proof.
  exists (n mod 10). split; [apply Nat.mod_upper_bound; discriminate | reflexivity].
Qed.

Lemma digit_no_dot n : Ascii.eqb (PyStr.digit n) "." = false.
Proof.
  destruct (digit_cases n) as (m & Hm & ->).
  do 10 (destruct m as [|m]; [vm_compute; reflexivity|]). lia.
Qed.

Lemma digit_no_colon n : Ascii.eqb (PyStr.digit n) ":" = false.
Proof.
  destruct (digit_cases n) as (m & Hm & ->).
  do 10 (destruct m as [|m]; [vm_compute; reflexivity|]). lia.
Qed.

Lemma zero_padded_no_dot k n : no_char "." (PyStr.zero_padded k n) = true.
Proof.
  revert n. induction k as [|k IH]; intros n; [reflexivity|].
  change (PyStr.zero_padded (S k) n)
    with (PyStr.zero_padded k (n / 10) ++ String (PyStr.digit n) "")%string.
  rewrite no_char_app, IH. cbn [no_char andb].
  now rewrite digit_no_dot.
Qed.

Lemma zero_padded_no_colon k n : no_char ":" (PyStr.zero_padded k n) = true.
Proof.
  revert n. induction k as [|k IH]; intros n; [reflexivity|].
  change (PyStr.zero_padded (S k) n)
    with (PyStr.zero_padded k (n / 10) ++ String (PyStr.digit n) "")%string.
  rewrite no_char_app, IH. cbn [no_char andb].
  now rewrite digit_no_colon.
Qed.

Lemma prefix_char c a s :
  String.prefix (String c EmptyString) (String a s) = Ascii.eqb a c.
Proof.
  simpl. destruct (ascii_dec c a) as [->|Hne].
  - rewrite Ascii.eqb_refl. now destruct s.
  - symmetry. apply Ascii.eqb_neq. congruence.
Qed.

Lemma split_head_app c a b :
  no_char c a = true ->
  PyStr.split_head (String c EmptyString) (a ++ b)%string
  = (a ++ PyStr.split_head (String c EmptyString) b)%string.
Proof.
  induction a as [|x a IH]; intros H; [reflexivity|].
  simpl in H. apply andb_prop in H. destruct H as [Hx Ha].
  change (String x a ++ b)%string with (String x (a ++ b)%string).
  unfold PyStr.split_head; fold PyStr.split_head.
  rewrite prefix_char. apply negb_true_iff in Hx. rewrite Hx.
  now rewrite IH.
Qed.

Lemma replace_char_app c new a b :
  PyStr.replace (String c EmptyString) new (a ++ b)%string
  = (PyStr.replace (String c EmptyString) new a
     ++ PyStr.replace (String c EmptyString) new b)%string.
Proof.
  unfold PyStr.replace.
  induction a as [|x a IH]; [reflexivity|].
  change (String x a ++ b)%string with (String x (a ++ b)%string).
  unfold PyStr.replace_from; fold PyStr.replace_from.
  rewrite !prefix_char. change (String.length (String c "") - 1) with 0.
  rewrite IH. destruct (Ascii.eqb x c); [|reflexivity].
  symmetry. apply append_assoc.
Qed.

Lemma replace_char_absent c new a :
  no_char c a = true -> PyStr.replace (String c EmptyString) new a = a.
Proof.
  unfold PyStr.replace.
  induction a as [|x a IH]; intros H; [reflexivity|].
  simpl in H. apply andb_prop in H. destruct H as [Hx Ha].
  unfold PyStr.replace_from; fold PyStr.replace_from.
  rewrite prefix_char. apply negb_true_iff in Hx. rewrite Hx.
  now rewrite IH.
Qed.

(** What [_temp_file] computes from [datetime.now()] is the dotted
    ISO-8601 stamp, with or without a fraction of a second on the clock. *)
Lemma timestamp_form t :
  PyStr.replace ":" "." (PyStr.split_head "." (isoformat t))
  = iso_seconds_dotted t.
Proof.
  unfold isoformat, iso_seconds_dotted.
  assert (Hfrac : PyStr.split_head "."
            (if Nat.eqb (microsecond t) 0 then ""
             else ("." ++ PyStr.zero_padded 6 (microsecond t))%string) = "")
    by (destruct (Nat.eqb (microsecond t) 0); reflexivity).
  repeat first
    [ rewrite split_head_app by apply zero_padded_no_dot
    | rewrite (split_head_app "." "-") by reflexivity
    | rewrite (split_head_app "." "T") by reflexivity
    | rewrite (split_head_app "." ":") by reflexivity ].
  rewrite Hfrac.
  repeat rewrite replace_char_app.
  repeat rewrite (replace_char_absent ":" "." (PyStr.zero_padded _ _))
    by apply zero_padded_no_colon.
  reflexivity.
Qed.

Example timestamp_example :
  iso_seconds_dotted Fixture.clock = "2021-03-09T14.05.07".
Proof. reflexivity. Qed.

(** ** Temporary directories *)

Lemma prefix_length a b :
  String.prefix a b = true -> String.length a <= String.length b.
Proof.
  revert a. induction b as [|y b IH]; intros [|x a]; simpl; try lia; try discriminate.
  destruct (ascii_dec x y); [|discriminate].
  intros H. apply IH in H. lia.
Qed.

Lemma length_append a b :
  String.length (a ++ b)%string = String.length a + String.length b.
Proof. induction a as [|x a IH]; simpl; [reflexivity | now rewrite IH]. Qed.

Lemma prefix_append a b : String.prefix a (a ++ b)%string = true.
Proof.
  induction a as [|x a IH]; simpl; [now destruct b|].
  destruct (ascii_dec x x); [exact IH | congruence].
Qed.

Lemma under_refl p : FS.under p p = true.
Proof. unfold FS.under. now rewrite String.eqb_refl. Qed.

(** The name [mkdtemp] picks is new, and nothing lies under it. *)
Lemma mkdtemp_name_fresh files p :
  In p files -> FS.under (FS.mkdtemp_name files) p = false.
Proof.
  intros Hin.
  assert (Hlen : String.length p < String.length (FS.mkdtemp_name files)).
  { unfold FS.mkdtemp_name. rewrite length_append.
    assert (Hf : forall n, String.length (FS.filler n) = n)
      by (induction n; simpl; congruence).
    rewrite Hf.
    assert (String.length p <= list_max (map String.length files)).
    { pose proof (proj1 (list_max_le (map String.length files) _) (le_n _)) as HF.
      rewrite Forall_forall in HF. apply HF. now apply in_map. }
    simpl. lia. }
  unfold FS.under. apply orb_false_iff. split.
  - apply String.eqb_neq. intros ->. lia.
  - destruct (String.prefix _ p) eqn:E; [|reflexivity].
    apply prefix_length in E. rewrite length_append in E.
    change (String.length "/") with 1 in E. lia.
Qed.

Lemma mkdtemp_name_new files : ~ In (FS.mkdtemp_name files) files.
Proof.
  intros Hin. apply mkdtemp_name_fresh in Hin.
  now rewrite under_refl in Hin.
Qed.

Lemma rmtree_fresh files : FS.rmtree (FS.mkdtemp_name files) files = files.
Proof.
  unfold FS.rmtree.
  assert (H : forall l, (forall p, In p l -> FS.under (FS.mkdtemp_name files) p = false) ->
                        filter (fun p => negb (FS.under (FS.mkdtemp_name files) p)) l = l).
  { induction l as [|p l IH]; intros Hl; simpl; [reflexivity|].
    rewrite (Hl p (or_introl eq_refl)). simpl.
    rewrite IH; [reflexivity|]. intros q Hq. apply Hl. now right. }
  apply H. intros p. apply mkdtemp_name_fresh.
Qed.

Lemma exists_rmtree root files : FS.exists_ root (FS.rmtree root files) = false.
Proof.
  unfold FS.exists_, FS.rmtree.
  induction files as [|p files IH]; simpl; [reflexivity|].
  destruct (FS.under root p) eqn:E; simpl; [exact IH|].
  rewrite IH, orb_false_r.
  unfold FS.under in E. apply orb_false_iff in E. destruct E as [E _].
  now rewrite String.eqb_sym.
Qed.

(** [_temp_file] always returns: it leaves one new, empty directory on disk
    and answers the path of the staged file inside it. *)
Lemma _temp_file_spec env self filename extension w :
  let tempdir := FS.mkdtemp_name (fs w) in
  _temp_file env self filename extension w
  = (Ok (PyStr.os_path_join tempdir
           (staged_name filename (now env (trace w)) extension)),
     set_fs (tempdir :: fs w) w).
Proof.
  cbv zeta. unfold _temp_file, bind, mkdtemp, rmtree, os_mkdir, datetime_now, ret.
  cbn [fs set_fs trace].
  change (FS.rmtree (FS.mkdtemp_name (fs w)) (FS.mkdtemp_name (fs w) :: fs w))
    with (if negb (FS.under (FS.mkdtemp_name (fs w)) (FS.mkdtemp_name (fs w)))
          then FS.mkdtemp_name (fs w) :: FS.rmtree (FS.mkdtemp_name (fs w)) (fs w)
          else FS.rmtree (FS.mkdtemp_name (fs w)) (fs w)).
  rewrite under_refl. cbn [negb].
  rewrite exists_rmtree, rmtree_fresh, timestamp_form.
  reflexivity.
Qed.

(** ** [Run.log_pickle] and [Run.log_pandas] *)

Ltac inv_extern :=
  repeat match goal with
  | H : extern _ _ _ = (Ok _, _) |- _ =>
      let Hr := fresh "Hraises" in let Ht := fresh "Htrace" in
      let Hf := fresh "Hfs" in let Hh := fresh "Hheap" in
      let Hl := fresh "Hlogs" in
      apply extern_Ok in H; destruct H as (Hr & Ht & Hf & Hh & Hl)
  end.

Lemma log_pickle_Ok env self data filename w r w' :
  log_pickle env self data filename w = (Ok r, w') ->
  let tempdir := FS.mkdtemp_name (fs w) in
  let p := PyStr.os_path_join tempdir
             (staged_name filename (now env (trace w)) "pkl") in
  r = self
  /\ trace w' = trace w
                ++ [open_wb p; pickle_dump data p; log_artifact (id self) p]
  /\ fs w' = p :: tempdir :: fs w
  /\ heap w' = heap w /\ logs w' = logs w.
Proof.
  unfold log_pickle. intros H. inv_ok.
  rewrite _temp_file_spec in H0. inversion H0; subst; clear H0.
  inv_extern. cbv zeta.
  rewrite Htrace, Htrace0, Htrace1, Hfs, Hfs0, Hfs1, Hheap, Hheap0, Hheap1,
    Hlogs, Hlogs0, Hlogs1.
  cbn [written set_fs trace fs heap logs app].
  rewrite <- !app_assoc. now repeat split.
Qed.

Lemma log_pandas_Ok env self df filename w r w' :
  log_pandas env self df filename w = (Ok r, w') ->
  let tempdir := FS.mkdtemp_name (fs w) in
  let p := PyStr.os_path_join tempdir
             (staged_name filename (now env (trace w)) "csv") in
  r = self
  /\ trace w' = trace w ++ [to_csv df p; log_artifact (id self) p]
  /\ fs w' = p :: tempdir :: fs w
  /\ heap w' = heap w /\ logs w' = logs w.
Proof.
  unfold log_pandas. intros H. inv_ok.
  rewrite _temp_file_spec in H0. inversion H0; subst; clear H0.
  inv_extern. cbv zeta.
  rewrite Htrace, Htrace0, Hfs, Hfs0, Hheap, Hheap0, Hlogs, Hlogs0.
  cbn [written set_fs trace fs heap logs app].
  rewrite <- !app_assoc. now repeat split.
Qed.

(** C9. A call of [log_pickle] or [log_pandas] that returns has written one
    staged file and uploaded it with exactly one [log_artifact] request.  The
    file lies in a fresh temporary directory and its name is
    [<basename>-<timestamp>.<extension>]: the basename is the [filename]
    argument, the time stamp is the clock's reading as
    [YYYY-MM-DDTHH.MM.SS], the extension is [pkl] for [log_pickle] and
    [csv] for [log_pandas]. *)
Theorem staged_artifact_name env self filename w :
  let t := now env (trace w) in
  let stamp :=
    (PyStr.zero_padded 4 (year t) ++ "-" ++ PyStr.zero_padded 2 (month t)
     ++ "-" ++ PyStr.zero_padded 2 (day t) ++ "T"
     ++ PyStr.zero_padded 2 (hour t) ++ "." ++ PyStr.zero_padded 2 (minute t)
     ++ "." ++ PyStr.zero_padded 2 (second t))%string in
  (forall data r w',
     log_pickle env self data filename w = (Ok r, w') ->
     exists tempdir,
       ~ In tempdir (fs w)
       /\ let p := PyStr.os_path_join tempdir
                     (filename ++ "-" ++ stamp ++ ".pkl")%string in
          trace w' = trace w ++ [open_wb p; pickle_dump data p;
                                 log_artifact (id self) p])
  /\ (forall df r w',
        log_pandas env self df filename w = (Ok r, w') ->
        exists tempdir,
          ~ In tempdir (fs w)
          /\ let p := PyStr.os_path_join tempdir
                        (filename ++ "-" ++ stamp ++ ".csv")%string in
             trace w' = trace w ++ [to_csv df p; log_artifact (id self) p]).
Proof.
  cbv zeta. split.
  - intros data r w' H. apply log_pickle_Ok in H.
    destruct H as (_ & Ht & _).
    exists (FS.mkdtemp_name (fs w)). split; [apply mkdtemp_name_new | exact Ht].
  - intros df r w' H. apply log_pandas_Ok in H.
    destruct H as (_ & Ht & _).
    exists (FS.mkdtemp_name (fs w)). split; [apply mkdtemp_name_new | exact Ht].
Qed.

Lemma staged_artifact_name_witness :
  exists tempdir,
    ~ In tempdir (fs Fixture.w0)
    /\ trace (snd (log_pickle Fixture.quiet Fixture.root (VObj "scaler")
                     "scaler" Fixture.w0))
       = [open_wb
            (PyStr.os_path_join tempdir "scaler-2021-03-09T14.05.07.pkl");
          pickle_dump (VObj "scaler")
            (PyStr.os_path_join tempdir "scaler-2021-03-09T14.05.07.pkl");
          log_artifact "r1"
            (PyStr.os_path_join tempdir "scaler-2021-03-09T14.05.07.pkl")].
Proof.
  destruct (staged_artifact_name Fixture.quiet Fixture.root "scaler" Fixture.w0)
    as (H & _).
  destruct (H (VObj "scaler") Fixture.root
              (snd (log_pickle Fixture.quiet Fixture.root (VObj "scaler")
                      "scaler" Fixture.w0)) eq_refl)
    as (tempdir & Hnew & Ht).
  exists tempdir. split; [exact Hnew | exact Ht].
Defined.

(** ** Staged files on disk *)

Lemma substring_last_cons x s :
  s <> EmptyString ->
  substring (String.length (String x s) - 1) 1 (String x s)
  = substring (String.length s - 1) 1 s.
Proof.
  destruct s as [|y s]; [congruence|]. intros _.
  cbn [String.length]. rewrite !Nat.sub_succ, !Nat.sub_0_r. reflexivity.
Qed.

Lemma filler_last c n :
  c <> "/"%char ->
  String.eqb (substring (String.length (String c (FS.filler n)) - 1) 1
                (String c (FS.filler n))) "/" = false.
Proof.
  revert c. induction n as [|n IH]; intros c Hc.
  - cbn. destruct (Ascii.eqb_spec c "/"); [congruence | reflexivity].
  - cbn [FS.filler]. rewrite substring_last_cons by discriminate.
    apply IH. discriminate.
Qed.

Lemma mkdtemp_name_join files b :
  String.prefix "/" b = false ->
  PyStr.os_path_join (FS.mkdtemp_name files) b
  = (FS.mkdtemp_name files ++ "/" ++ b)%string.
Proof.
  intros Hb. unfold PyStr.os_path_join. rewrite Hb.
  unfold FS.mkdtemp_name.
  set (n := list_max (map String.length files)).
  cbn [append].
  do 7 (rewrite substring_last_cons by discriminate).
  rewrite filler_last by discriminate. reflexivity.
Qed.

Lemma under_join root b : FS.under root (root ++ "/" ++ b)%string = true.
Proof.
  unfold FS.under. rewrite <- append_assoc, prefix_append.
  apply orb_true_r.
Qed.

(** [log_model] stages under a fresh directory and leaves the disk as it
    found it, whether the flavor, the upload or the recording of the
    metadata succeeded or raised. *)
Lemma log_model_removes_staging env self model name flavor kwargs w :
  fs (snd (log_model env self model name flavor kwargs w)) = fs w.
Proof.
  unfold log_model, bind, with_TempDir, mkdtemp, try_except_MlflowException,
    extern, logger, ret.
  cbn [fs set_fs trace issue].
  rewrite mkdtemp_name_join by reflexivity.
  set (tmp := FS.mkdtemp_name (fs w)).
  assert (Hself : FS.exists_ tmp (tmp :: fs w) = true)
    by (unfold FS.exists_; simpl; now rewrite String.eqb_refl).
  assert (Hrm0 : FS.rmtree tmp (tmp :: fs w) = fs w).
  { unfold FS.rmtree. cbn [filter]. rewrite under_refl. cbn [negb].
    apply rmtree_fresh. }
  assert (Hself1 : forall q, FS.exists_ tmp (q :: tmp :: fs w) = true)
    by (intros q; unfold FS.exists_; simpl; rewrite String.eqb_refl;
        now rewrite orb_true_r).
  assert (Hrm1 : FS.rmtree tmp ((tmp ++ "/" ++ "model")%string :: tmp :: fs w) = fs w).
  { unfold FS.rmtree. cbn [filter]. rewrite under_join, under_refl.
    cbn [negb]. apply rmtree_fresh. }
  repeat match goal with
  | |- context [raises env ?t ?c] => destruct (raises env t c) eqn:?
  | |- context [is_MlflowException ?e] => destruct (is_MlflowException e) eqn:?
  end;
  cbn [fs set_fs trace issue written app fst snd heap logs];
  rewrite ?Hself, ?Hself1; cbn [fs set_fs]; rewrite ?Hrm0, ?Hrm1; reflexivity.
Qed.

(** [log_pickle] and [log_pandas] leave behind what they staged: on return
    the file handed to [log_artifact] and its directory are on disk, and
    neither was there before. *)
Lemma staged_file_remains env self filename w :
  (forall data r w',
     log_pickle env self data filename w = (Ok r, w') ->
     exists tempdir p,
       In (log_artifact (id self) p) (trace w')
       /\ In p (fs w') /\ In tempdir (fs w') /\ ~ In tempdir (fs w))
  /\ (forall df r w',
        log_pandas env self df filename w = (Ok r, w') ->
        exists tempdir p,
          In (log_artifact (id self) p) (trace w')
          /\ In p (fs w') /\ In tempdir (fs w') /\ ~ In tempdir (fs w)).
Proof.
  split.
  - intros data r w' H. apply log_pickle_Ok in H. cbv zeta in H.
    destruct H as (_ & Ht & Hf & _).
    eexists _, _. rewrite Ht, Hf. repeat split.
    + apply in_or_app. right. simpl. right. right. left. reflexivity.
    + left. reflexivity.
    + right. left. reflexivity.
    + apply mkdtemp_name_new.
  - intros df r w' H. apply log_pandas_Ok in H. cbv zeta in H.
    destruct H as (_ & Ht & Hf & _).
    eexists _, _. rewrite Ht, Hf. repeat split.
    + apply in_or_app. right. simpl. right. left. reflexivity.
    + left. reflexivity.
    + right. left. reflexivity.
    + apply mkdtemp_name_new.
Qed.

(** C3 (the code departs from the claim). The staging directory of each of
    the three methods is new, and [log_model] removes its directory on every
    exit path ([log_model_removes_staging]).  [log_pickle] and [log_pandas]
    remove nothing: with a service that never fails, pickling one object
    from the root run returns [self] and leaves the staged file and its
    directory on disk. *)
Theorem log_pickle_leaves_staged_file :
  let out := log_pickle Fixture.quiet Fixture.root (VObj "scaler") "scaler"
               Fixture.w0 in
  fst out = Ok Fixture.root
  /\ fs Fixture.w0 = ["/tmp"]
  /\ fs (snd out) = ["/tmp/tmp____/scaler-2021-03-09T14.05.07.pkl";
                     "/tmp/tmp____"; "/tmp"]
  /\ trace (snd out)
     = [open_wb "/tmp/tmp____/scaler-2021-03-09T14.05.07.pkl";
        pickle_dump (VObj "scaler")
          "/tmp/tmp____/scaler-2021-03-09T14.05.07.pkl";
        log_artifact "r1" "/tmp/tmp____/scaler-2021-03-09T14.05.07.pkl"].
Proof. vm_compute. repeat split; reflexivity. Qed.

(** ** [Run.log_cv_run] *)

Lemma only_calls_nil w : only_calls w w [].
Proof. unfold only_calls. now rewrite app_nil_r. Qed.

Lemma only_calls_trans w w1 w2 a b :
  only_calls w w1 a -> only_calls w1 w2 b -> only_calls w w2 (a ++ b).
Proof.
  unfold only_calls. intros (Ht & Hf & Hh) (Ht' & Hf' & Hh').
  rewrite Ht', Ht, Hf', Hf, Hh', Hh, app_assoc. now repeat split.
Qed.

Lemma logger_only lvl msg u w w' :
  logger lvl msg w = (Ok u, w') -> only_calls w w' [].
Proof.
  intros H. apply logger_Ok in H. destruct H as (Ht & Hf & Hh & _).
  unfold only_calls. now rewrite Ht, Hf, Hh, app_nil_r.
Qed.

Lemma extern_only env c u w w' :
  written c = [] -> extern env c w = (Ok u, w') -> only_calls w w' [c].
Proof.
  intros Hw H. apply extern_Ok in H. destruct H as (_ & Ht & Hf & Hh & _).
  unfold only_calls. now rewrite Ht, Hf, Hh, Hw.
Qed.

(** A loop whose body only issues requests: the requests of the loop are
    those of its rounds, in order. *)
Lemma for_each_calls {A} (body : A -> M unit) (R : A -> list Call -> Prop) :
  (forall x w u w',
     body x w = (Ok u, w') -> exists cs, R x cs /\ only_calls w w' cs) ->
  forall xs w u w',
    for_each xs body w = (Ok u, w') ->
    exists css, Forall2 R xs css /\ only_calls w w' (List.concat css).
Proof.
  intros Hbody. induction xs as [|x xs IH]; intros w u w' H.
  - simpl in H. inv_ok. exists []. split; [constructor | apply only_calls_nil].
  - simpl in H. inv_ok.
    apply Hbody in H0. destruct H0 as (cs & HR & Hcs).
    apply IH in H1. destruct H1 as (css & HF & Hcss).
    exists (cs :: css). split; [now constructor|].
    simpl. eapply only_calls_trans; eassumption.
Qed.

Lemma cell_Ok cv_results key i column v :
  getitem cv_results key = Ok column -> index column i = Ok v ->
  cell cv_results key i = Ok v.
Proof. unfold cell. now intros -> ->. Qed.

Lemma param_round env rid gs i param w u w' :
  (column <- lift (getitem (cv_results_ gs) ("param_" ++ param)%string) ;;
   value <- lift (index column i) ;;
   extern env (log_param rid param value)) w = (Ok u, w') ->
  exists cs, param_calls rid gs i param cs /\ only_calls w w' cs.
Proof.
  intros H. inv_ok.
  eexists. split.
  - eexists. split; [eapply cell_Ok; eassumption | reflexivity].
  - eapply extern_only; [reflexivity | eassumption].
Qed.

Lemma metric_round env rid gs i score_name w u w' :
  (column <- lift (getitem (cv_results_ gs) score_name) ;;
   value <- lift (index column i) ;;
   extern env (log_metric rid score_name value) ;;
   let std_name := PyStr.replace "mean" "std" score_name in
   column <- lift (getitem (cv_results_ gs) std_name) ;;
   value <- lift (index column i) ;;
   extern env (log_metric rid std_name value)) w = (Ok u, w') ->
  exists cs, metric_calls rid gs i score_name cs /\ only_calls w w' cs.
Proof.
  intros H. inv_ok.
  eexists. split.
  - eexists _, _. split; [eapply cell_Ok; eassumption|].
    split; [eapply cell_Ok; eassumption | reflexivity].
  - change [log_metric rid score_name a0;
            log_metric rid (PyStr.replace "mean" "std" score_name) a3]
      with ([log_metric rid score_name a0]
            ++ [log_metric rid (PyStr.replace "mean" "std" score_name) a3]).
    eapply only_calls_trans; eapply extern_only; try eassumption; reflexivity.
Qed.

Lemma tag_round env rid kv w u w' :
  extern env (set_tag rid (fst kv) (snd kv)) w = (Ok u, w') ->
  exists cs, tag_calls rid kv cs /\ only_calls w w' cs.
Proof.
  intros H. eexists. split; [reflexivity|].
  eapply extern_only; [reflexivity | eassumption].
Qed.

Lemma log_cv_run_Ok env self gs model_name i tags w r w' :
  log_cv_run env self gs model_name i tags w = (Ok r, w') ->
  r = self
  /\ exists calls,
       only_calls w w' calls
       /\ cv_run_calls (id self) gs i
            (heap w (default log_cv_run_tags tags)) calls.
Proof.
  unfold log_cv_run. intros H. inv_ok.
  repeat match goal with
  | H : logger _ _ _ = (Ok _, _) |- _ => apply logger_only in H
  | H : extern _ (log_param _ "folds" _) _ = (Ok _, _) |- _ =>
      apply extern_only in H; [|reflexivity]
  | H : deref _ ?w = (Ok _, _) |- _ =>
      unfold deref in H; inversion H; subst; clear H
  | H : for_each (PyDict.keys (param_grid _)) _ _ = (Ok _, _) |- _ =>
      apply (for_each_calls _ (param_calls (id self) gs i)) in H;
      [destruct H as (ps & HP & Hps) | intros; eapply param_round; eassumption]
  | H : for_each (filter _ _) _ _ = (Ok _, _) |- _ =>
      apply (for_each_calls _ (metric_calls (id self) gs i)) in H;
      [destruct H as (ms & HM & Hms) | intros; eapply metric_round; eassumption]
  | H : for_each (PyDict.items _) _ _ = (Ok _, _) |- _ =>
      apply (for_each_calls _ (tag_calls (id self))) in H;
      [destruct H as (ts & HT & Hts) | intros; eapply tag_round; eassumption]
  end.
  split; [reflexivity|].
  repeat match goal with
  | H : only_calls ?a ?b _ |- _ =>
      lazymatch goal with
      | _ : heap b = heap a |- _ => fail
      | _ => pose proof (proj2 (proj2 H) : heap b = heap a)
      end
  end.
  assert (HT' : Forall2 (tag_calls (id self))
                  (heap w (default log_cv_run_tags tags)) ts).
  { unfold PyDict.items in HT.
    match type of HT with
    | Forall2 _ (heap ?x _) _ => replace (heap w) with (heap x); [exact HT|]
    end.
    congruence. }
  repeat match goal with
  | H1 : only_calls ?a ?b _, H2 : only_calls ?b ?c _ |- _ =>
      pose proof (only_calls_trans _ _ _ _ _ H1 H2); clear H1 H2
  end.
  match goal with
  | H : only_calls w _ ?l |- _ => exists l; split; [exact H|]
  end.
  exists ps, ms, ts. split; [|now repeat split].
  simpl. rewrite ?app_nil_r, <- ?app_assoc. reflexivity.
Qed.

Lemma count_app kind a b : count kind (a ++ b) = count kind a + count kind b.
Proof. unfold count. now rewrite filter_app, length_app. Qed.

Lemma count_concat {A} kind (R : A -> list Call -> Prop) k xs css :
  (forall x cs, R x cs -> count kind cs = k) ->
  Forall2 R xs css -> count kind (List.concat css) = k * List.length xs.
Proof.
  intros HR HF. induction HF as [|x cs xs css Hx _ IH]; simpl.
  - now rewrite Nat.mul_0_r.
  - rewrite count_app, IH, (HR _ _ Hx). lia.
Qed.

(** C4. A call of [log_cv_run] that returns, returns [self], and the requests
    it issued are: one [log_param] for the fold count and one per key of the
    hyperparameter grid; two [log_metric] (the mean, then the std column)
    per result key whose name contains [mean_test]; one [set_tag] per entry
    of the tags mapping.  Nothing else was requested. *)
Theorem log_cv_run_requests env self gs model_name i tags w r w' :
  log_cv_run env self gs model_name i tags w = (Ok r, w') ->
  let grid := PyDict.keys (param_grid gs) in
  let scores :=
    filter (PyStr.contains "mean_test") (PyDict.keys (cv_results_ gs)) in
  let entries := heap w (default log_cv_run_tags tags) in
  r = self
  /\ exists calls,
       trace w' = trace w ++ calls
       /\ cv_run_calls (id self) gs i entries calls
       /\ count is_log_param calls = 1 + List.length grid
       /\ count is_log_metric calls = 2 * List.length scores
       /\ count is_set_tag calls = List.length entries
       /\ List.length calls
          = 1 + List.length grid + 2 * List.length scores + List.length entries.
Proof.
  intros H. cbv zeta. apply log_cv_run_Ok in H.
  destruct H as (-> & calls & (Ht & _) & Hcalls).
  split; [reflexivity|]. exists calls. split; [exact Ht|]. split; [exact Hcalls|].
  destruct Hcalls as (ps & ms & ts & -> & HP & HM & HT).
  assert (Hp : forall kind k,
             (forall v p, count kind [log_param (id self) p v] = k) ->
             count kind (List.concat ps)
             = k * List.length (PyDict.keys (param_grid gs))).
  { intros kind k Hk. eapply count_concat; [|exact HP].
    intros x cs (v & _ & ->). apply Hk. }
  assert (Hm : forall kind k,
             (forall a b m s,
                count kind [log_metric (id self) a m; log_metric (id self) b s]
                = k) ->
             count kind (List.concat ms)
             = k * List.length (filter (PyStr.contains "mean_test")
                                  (PyDict.keys (cv_results_ gs)))).
  { intros kind k Hk. eapply count_concat; [|exact HM].
    intros x cs (m & s & _ & _ & ->). apply Hk. }
  assert (Ht' : forall kind k,
             (forall a v, count kind [set_tag (id self) a v] = k) ->
             count kind (List.concat ts)
             = k * List.length (heap w (default log_cv_run_tags tags))).
  { intros kind k Hk. eapply count_concat; [|exact HT].
    intros x cs ->. apply Hk. }
  change (log_param (id self) "folds" (cv gs)
          :: List.concat ps ++ List.concat ms ++ List.concat ts)
    with ([log_param (id self) "folds" (cv gs)]
          ++ List.concat ps ++ List.concat ms ++ List.concat ts).
  repeat split.
  - rewrite !count_app, (Hp _ 1), (Hm _ 0), (Ht' _ 0) by reflexivity.
    change (count is_log_param [log_param (id self) "folds" (cv gs)]) with 1. lia.
  - rewrite !count_app, (Hp _ 0), (Hm _ 2), (Ht' _ 0) by reflexivity.
    change (count is_log_metric [log_param (id self) "folds" (cv gs)]) with 0. lia.
  - rewrite !count_app, (Hp _ 0), (Hm _ 0), (Ht' _ 1) by reflexivity.
    change (count is_set_tag [log_param (id self) "folds" (cv gs)]) with 0. lia.
  - pose proof (Hp (fun _ => true) 1 (fun _ _ => eq_refl)) as L1.
    pose proof (Hm (fun _ => true) 2 (fun _ _ _ _ => eq_refl)) as L2.
    pose proof (Ht' (fun _ => true) 1 (fun _ _ => eq_refl)) as L3.
    assert (Hall : forall l : list Call, count (fun _ => true) l = List.length l).
    { intros l. unfold count. induction l; simpl; congruence. }
    rewrite Hall in L1, L2, L3.
    rewrite !length_app, L1, L2, L3. simpl. lia.
Qed.

Lemma log_cv_run_requests_witness :
  exists calls,
    trace (snd (log_cv_run Fixture.quiet Fixture.root Fixture.sweep "svc" 1
                  None Fixture.w0)) = calls
    /\ count is_log_param calls = 2
    /\ count is_log_metric calls = 2
    /\ count is_set_tag calls = 0.
Proof.
  destruct (log_cv_run_requests Fixture.quiet Fixture.root Fixture.sweep "svc"
              1 None Fixture.w0 Fixture.root
              (snd (log_cv_run Fixture.quiet Fixture.root Fixture.sweep "svc"
                      1 None Fixture.w0)) eq_refl)
    as (_ & calls & Ht & _ & Hp & Hm & Hs & _).
  exists calls. repeat split; assumption.
Defined.

(** ** The std column of a score *)

(** A call of [log_cv_run] returns only if, for every score column whose
    name contains [mean_test], the sweep has a column under that name with
    each [mean] rewritten to [std]. *)
Lemma std_column_needed env self gs model_name i tags w r w' score_name :
  log_cv_run env self gs model_name i tags w = (Ok r, w') ->
  In score_name (PyDict.keys (cv_results_ gs)) ->
  PyStr.contains "mean_test" score_name = true ->
  exists column,
    PyDict.get (cv_results_ gs) (PyStr.replace "mean" "std" score_name)
    = Some column.
Proof.
  intros H Hin Hc. apply log_cv_run_Ok in H.
  destruct H as (_ & calls & _ & (ps & ms & ts & _ & _ & HM & _)).
  assert (Hs : In score_name
                 (filter (PyStr.contains "mean_test")
                    (PyDict.keys (cv_results_ gs))))
    by (apply filter_In; now split).
  clear Hin Hc. induction HM as [|x cs xs css Hx _ IH]; [contradiction|].
  destruct Hs as [->|Hs]; [|now apply IH].
  destruct Hx as (m & sd & _ & Hstd & _).
  unfold cell, getitem in Hstd.
  destruct (PyDict.get (cv_results_ gs) (PyStr.replace "mean" "std" score_name))
    as [column|]; [now exists column | discriminate].
Qed.

(** C10. [log_cv_run] looks the std column up under the score name with
    every [mean] rewritten to [std].  For a sweep scored by a scorer named
    [mean_squared_error], whose columns scikit-learn calls
    [mean_test_mean_squared_error] and [std_test_mean_squared_error], the
    derived key is [std_test_std_squared_error]: it is not the std column,
    which is there, and the call raises [KeyError] after the mean has been
    logged, without logging the std. *)
Theorem std_key_rewrites_every_mean :
  let key := PyStr.replace "mean" "std" "mean_test_mean_squared_error" in
  let out := log_cv_run Fixture.quiet Fixture.root Fixture.sweep_mse "svr" 1
               None Fixture.w0 in
  key = "std_test_std_squared_error"
  /\ PyDict.get (cv_results_ Fixture.sweep_mse) "std_test_mean_squared_error"
     = Some [VFloat "0.05"; VFloat "0.03"]
  /\ PyDict.get (cv_results_ Fixture.sweep_mse) key = None
  /\ fst out = Raise (KeyError "std_test_std_squared_error")
  /\ trace (snd out)
     = [log_param "r1" "folds" (VInt 5); log_param "r1" "C" (VInt 10);
        log_metric "r1" "mean_test_mean_squared_error" (VFloat "0.9")].
Proof. vm_compute. repeat split; reflexivity. Qed.

(** ** [Run.log_cross_validation] *)

Lemma str_nonempty n : PyStr.str n <> EmptyString.
Proof.
  unfold PyStr.str, NilZero.string_of_int, NilZero.string_of_uint.
  destruct (Z.to_int n) as [d|d]; [|discriminate].
  destruct d; simpl; discriminate.
Qed.

Lemma create_Ok env name e parent tags w r w' :
  create env name e parent tags w = (Ok r, w') ->
  r = __init__ {| run_id := new_run_id env (trace w) |} e parent
  /\ w' = snd (create env name e parent tags w).
Proof.
  intros H. split; [|now rewrite H].
  revert H.
  unfold create, bind, client_create_run, extern, deref, setitem, ret.
  destruct parent; destruct (Nat.ltb 0 (String.length name)); simpl;
    match goal with
    | |- context [raises env ?t ?c] => destruct (raises env t c)
    end; intros H; inversion H; reflexivity.
Qed.

Lemma log_model_Ok env self model name flavor kwargs w r w' :
  log_model env self model name flavor kwargs w = (Ok r, w') ->
  let local_path := PyStr.os_path_join (FS.mkdtemp_name (fs w)) "model" in
  let mlflow_model :=
    {| model_run_id := id self;
       artifact_path := Experiment.models_path (experiment self) |} in
  r = self
  /\ trace w' = trace w
                ++ [save_model flavor model local_path mlflow_model kwargs;
                    log_artifacts (id self) local_path;
                    record_logged_model (id self) mlflow_model]
  /\ fs w' = fs w /\ heap w' = heap w.
Proof.
  intros H. cbv zeta.
  pose proof (log_model_removes_staging env self model name flavor kwargs w) as Hfs.
  rewrite H in Hfs. simpl in Hfs.
  revert H.
  unfold log_model, bind, with_TempDir, mkdtemp, try_except_MlflowException,
    extern, logger, ret.
  cbn [fs set_fs trace issue].
  repeat match goal with
  | |- context [raises env ?t ?c] => destruct (raises env t c) eqn:?
  | |- context [is_MlflowException ?e] => destruct (is_MlflowException e) eqn:?
  end;
  cbn [fs set_fs trace issue written app fst snd heap logs];
  repeat match goal with
  | |- context [if ?b then _ else _] => destruct b
  end;
  intros H; inversion H; subst; cbn [fs set_fs trace issue heap];
  rewrite <- ?app_assoc; repeat split; auto.
Qed.

(** One child run: created under the best candidate's index as its name,
    filled by [log_cv_run] for candidate [i], ended. *)
Lemma child_round env self gs model_name name i tags w u w' :
  name <> EmptyString ->
  (child <- start_run env self (Some name) None ;;
   child <- log_cv_run env child gs model_name i (Some tags) ;;
   end_ env child) w = (Ok u, w') ->
  exists block,
    child_block env self gs name i (trace w) block
    /\ trace w' = trace w ++ block.
Proof.
  intros Hname H. inv_ok.
  pose proof (start_run_issues env self (Some name) None w) as Hs.
  cbv zeta in Hs. destruct Hs as (Hst & _).
  rewrite (nonempty_length _ Hname) in Hst.
  unfold start_run in H0. apply create_Ok in H0. destruct H0 as (-> & Hw).
  fold (start_run env self (Some name) None w) in Hst.
  unfold start_run in Hst. rewrite <- Hw in Hst.
  apply log_cv_run_Ok in H. destruct H as (-> & calls & (Htc & _) & Hcalls).
  unfold end_ in H2. apply extern_Ok in H2. destruct H2 as (_ & Hte & _).
  cbn [id __init__ run_id] in *.
  eexists. split.
  - eexists _, calls, _. split; [reflexivity|].
    split; [apply get_set_same|].
    split; [|exact Hcalls].
    rewrite get_set_other by (intro E; symmetry in E; now apply tag_keys_differ).
    apply get_set_same.
  - rewrite Hte, Htc, Hst. rewrite <- !app_assoc. reflexivity.
Qed.

Lemma children_loop env self gs model_name name tags xs :
  name <> EmptyString ->
  forall w u w',
    for_each xs (fun i =>
      child <- start_run env self (Some name) None ;;
      child <- log_cv_run env child gs model_name (Z.of_nat i) (Some tags) ;;
      end_ env child) w = (Ok u, w') ->
    exists blocks,
      child_blocks env self gs name (trace w) (map Z.of_nat xs) blocks
      /\ trace w' = trace w ++ List.concat blocks.
Proof.
  intros Hname. induction xs as [|x xs IH]; intros w u w' H.
  - simpl in H. inv_ok. exists []. split; [constructor | now rewrite app_nil_r].
  - simpl in H. apply bind_Ok in H. destruct H as (a & w1 & Hx & Hxs).
    apply (child_round env self gs model_name name (Z.of_nat x) tags) in Hx;
      [|exact Hname].
    destruct Hx as (block & Hb & Ht).
    apply IH in Hxs. destruct Hxs as (blocks & Hbs & Ht').
    exists (block :: blocks). split.
    + simpl. constructor; [exact Hb | now rewrite <- Ht].
    + simpl. rewrite Ht', Ht, app_assoc. reflexivity.
Qed.

(** The requests of a call of [log_cross_validation] that returns. *)
Lemma log_cross_validation_Ok env self gs model_name tags log_only_best
    w r w' :
  log_cross_validation env self gs model_name tags log_only_best w
  = (Ok r, w') ->
  r = self
  /\ exists candidates blocks,
       (if log_only_best then candidates = [best_index_ gs]
        else exists params,
               getitem (cv_results_ gs) "params" = Ok params
               /\ candidates = map Z.of_nat (seq 0 (List.length params)))
       /\ child_blocks env self gs (PyStr.str (best_index_ gs))
            (trace w ++ sweep_preamble env self gs w) candidates blocks
       /\ trace w' = trace w ++ sweep_preamble env self gs w
                     ++ List.concat blocks.
Proof.
  unfold log_cross_validation. intros H. inv_ok.
  repeat match goal with
  | H : logger _ _ _ = (Ok _, _) |- _ =>
      apply logger_Ok in H; destruct H as (? & ? & ? & _)
  end.
  match goal with
  | H : log_model _ _ _ _ _ _ _ = (Ok _, _) |- _ =>
      apply log_model_Ok in H; cbv zeta in H;
      destruct H as (_ & Htm & Hfm & Hhm)
  end.
  match goal with
  | H : log_pandas _ _ _ _ _ = (Ok _, _) |- _ =>
      apply log_pandas_Ok in H; cbv zeta in H;
      destruct H as (_ & Htp & Hfp & Hhp)
  end.
  split; [reflexivity|].
  assert (Hpre : trace w3 = trace w ++ sweep_preamble env self gs w).
  { unfold sweep_preamble. rewrite Htp.
    repeat match goal with
    | H : trace ?x = _ |- context [trace ?x] => rewrite H
    | H : fs ?x = _ |- context [fs ?x] => rewrite H
    end.
    rewrite <- app_assoc. reflexivity. }
  destruct log_only_best.
  - match goal with
    | H : _ w3 = (Ok _, _) |- _ =>
        apply (child_round env self gs model_name _ (best_index_ gs)) in H;
        [destruct H as (block & Hb & Ht) | apply str_nonempty]
    end.
    exists [best_index_ gs], [block]. split; [reflexivity|]. split.
    + constructor; [now rewrite <- Hpre | constructor].
    + simpl. rewrite Ht, Hpre, app_nil_r, <- app_assoc. reflexivity.
  - inv_ok.
    match goal with
    | H : for_each _ _ _ = (Ok _, _) |- _ =>
        apply children_loop in H;
        [destruct H as (blocks & Hbs & Ht) | apply str_nonempty]
    end.
    eexists _, blocks. split; [eexists; split; [eassumption | reflexivity]|].
    split.
    + now rewrite <- Hpre.
    + rewrite Ht, Hpre, <- app_assoc. reflexivity.
Qed.

Lemma cv_run_calls_count kind rid gs i entries calls :
  (forall r k v, kind (log_param r k v) = false) ->
  (forall r k v, kind (log_metric r k v) = false) ->
  (forall r k v, kind (set_tag r k v) = false) ->
  cv_run_calls rid gs i entries calls -> count kind calls = 0.
Proof.
  intros Kp Km Kt (ps & ms & ts & -> & HP & HM & HT).
  change (log_param rid "folds" (cv gs)
          :: List.concat ps ++ List.concat ms ++ List.concat ts)
    with ([log_param rid "folds" (cv gs)]
          ++ List.concat ps ++ List.concat ms ++ List.concat ts).
  rewrite !count_app.
  assert (Hp : count kind (List.concat ps)
               = 0 * List.length (PyDict.keys (param_grid gs))).
  { eapply count_concat; [|exact HP]. intros x cs (v & _ & ->).
    unfold count. simpl. now rewrite Kp. }
  assert (Hm : count kind (List.concat ms)
               = 0 * List.length (filter (PyStr.contains "mean_test")
                                    (PyDict.keys (cv_results_ gs)))).
  { eapply count_concat; [|exact HM]. intros x cs (m & s & _ & _ & ->).
    unfold count. simpl. now rewrite !Km. }
  assert (Ht : count kind (List.concat ts) = 0 * List.length entries).
  { eapply count_concat; [|exact HT]. intros x cs ->.
    unfold count. simpl. now rewrite Kt. }
  rewrite Hp, Hm, Ht. unfold count. simpl. now rewrite Kp.
Qed.

Lemma count_zero_In kind calls c :
  count kind calls = 0 -> In c calls -> kind c = false.
Proof.
  unfold count. induction calls as [|x calls IH]; simpl; [tauto|].
  destruct (kind x) eqn:E; simpl; [discriminate|].
  intros H [<-|Hin]; auto.
Qed.

Lemma child_block_counts env self gs name i before block :
  child_block env self gs name i before block ->
  count is_create_run block = 1 /\ count is_set_terminated block = 1.
Proof.
  intros (d & calls & entries & -> & _ & _ & Hc).
  change (create_run (Experiment.id (experiment self)) d
          :: calls ++ [set_terminated (new_run_id env before)])
    with ([create_run (Experiment.id (experiment self)) d]
          ++ calls ++ [set_terminated (new_run_id env before)]).
  rewrite !count_app.
  rewrite (cv_run_calls_count is_create_run _ _ _ _ _
             (fun _ _ _ => eq_refl) (fun _ _ _ => eq_refl)
             (fun _ _ _ => eq_refl) Hc).
  rewrite (cv_run_calls_count is_set_terminated _ _ _ _ _
             (fun _ _ _ => eq_refl) (fun _ _ _ => eq_refl)
             (fun _ _ _ => eq_refl) Hc).
  split; reflexivity.
Qed.

Lemma child_blocks_counts env self gs name before candidates blocks :
  child_blocks env self gs name before candidates blocks ->
  List.length blocks = List.length candidates
  /\ count is_create_run (List.concat blocks) = List.length candidates
  /\ count is_set_terminated (List.concat blocks) = List.length candidates.
Proof.
  induction 1 as [|before i rest block blocks Hb _ (IHl & IHc & IHt)]; simpl.
  - now repeat split.
  - apply child_block_counts in Hb. destruct Hb as (Hc & Ht).
    rewrite !count_app, Hc, Ht, IHl, IHc, IHt. now repeat split.
Qed.

Lemma child_blocks_names env self gs name before candidates blocks e d :
  child_blocks env self gs name before candidates blocks ->
  In (create_run e d) (List.concat blocks) ->
  PyDict.get d MLFLOW_RUN_NAME = Some (VStr name).
Proof.
  induction 1 as [|before i rest block blocks Hb _ IH]; simpl; [tauto|].
  intros Hin. apply in_app_or in Hin. destruct Hin as [Hin|Hin]; [|auto].
  destruct Hb as (d0 & calls & entries & -> & Hn & _ & Hc).
  destruct Hin as [Heq|Hin]; [now inversion Heq; subst|].
  apply in_app_or in Hin. destruct Hin as [Hin|[Heq|[]]]; [|discriminate].
  apply (count_zero_In is_create_run) in Hin; [discriminate|].
  eapply cv_run_calls_count; eauto.
Qed.

Lemma sweep_preamble_counts env self gs w :
  count is_create_run (sweep_preamble env self gs w) = 0
  /\ count is_set_terminated (sweep_preamble env self gs w) = 0.
Proof. split; reflexivity. Qed.

(** C1. When [log_cross_validation] is called with [log_only_best=False] and
    returns, then after the best model and the results matrix it has
    requested one child run per entry of [cv_results_['params']], in order:
    every one of them is created under the name [str(best_index_)], and the
    position in the loop appears only as the candidate whose parameters and
    scores [log_cv_run] logs into it.  No other run is created, so every
    [create_run] request of the call carries [str(best_index_)] as its run
    name. *)
Theorem every_child_named_after_best env self gs model_name tags w r w' :
  log_cross_validation env self gs model_name tags false w = (Ok r, w') ->
  exists params blocks,
    getitem (cv_results_ gs) "params" = Ok params
    /\ trace w' = trace w ++ sweep_preamble env self gs w
                  ++ List.concat blocks
    /\ List.length blocks = List.length params
    /\ child_blocks env self gs (PyStr.str (best_index_ gs))
         (trace w ++ sweep_preamble env self gs w)
         (map Z.of_nat (seq 0 (List.length params))) blocks
    /\ forall e d,
         In (create_run e d)
            (sweep_preamble env self gs w ++ List.concat blocks) ->
         PyDict.get d MLFLOW_RUN_NAME
         = Some (VStr (PyStr.str (best_index_ gs))).
Proof.
  intros H. apply log_cross_validation_Ok in H.
  destruct H as (_ & candidates & blocks & (params & Hp & ->) & Hb & Ht).
  exists params, blocks. split; [exact Hp|]. split; [exact Ht|].
  pose proof (child_blocks_counts _ _ _ _ _ _ _ Hb) as (Hl & _).
  rewrite length_map, length_seq in Hl.
  split; [exact Hl|]. split; [exact Hb|].
  intros e d Hin. apply in_app_or in Hin. destruct Hin as [Hin|Hin].
  - apply (count_zero_In is_create_run) in Hin; [discriminate|].
    apply sweep_preamble_counts.
  - eapply child_blocks_names; eassumption.
Qed.

Lemma every_child_named_after_best_witness :
  exists blocks,
    trace (snd (log_cross_validation Fixture.quiet Fixture.root Fixture.sweep
                  "svc" None false Fixture.w0))
    = sweep_preamble Fixture.quiet Fixture.root Fixture.sweep Fixture.w0
      ++ List.concat blocks
    /\ List.length blocks = 2
    /\ forall e d,
         In (create_run e d)
            (sweep_preamble Fixture.quiet Fixture.root Fixture.sweep Fixture.w0
             ++ List.concat blocks) ->
         PyDict.get d MLFLOW_RUN_NAME = Some (VStr "1").
Proof.
  assert (Hrun : log_cross_validation Fixture.quiet Fixture.root Fixture.sweep
                   "svc" None false Fixture.w0
                 = (Ok Fixture.root,
                    snd (log_cross_validation Fixture.quiet Fixture.root
                           Fixture.sweep "svc" None false Fixture.w0)))
    by (vm_compute; reflexivity).
  destruct (every_child_named_after_best Fixture.quiet Fixture.root
              Fixture.sweep "svc" None Fixture.w0 Fixture.root _ Hrun)
    as (params & blocks & Hp & Ht & Hl & _ & Hn).
  assert (Hlen : List.length params = 2)
    by (vm_compute in Hp; inversion Hp; reflexivity).
  exists blocks. split; [exact Ht|].
  split; [now rewrite Hl | exact Hn].
Defined.

(** C5. A call of [log_cross_validation] that returns, returns [self]; it has
    asked the service to create exactly one run when [log_only_best] is set,
    and exactly one per entry of [cv_results_['params']] when it is not; and
    each of these requests is followed, after the candidate has been logged,
    by the request that ends the very run the service answered with. *)
Theorem one_child_run_per_candidate env self gs model_name tags log_only_best
    w r w' :
  log_cross_validation env self gs model_name tags log_only_best w
  = (Ok r, w') ->
  r = self
  /\ exists n candidates blocks,
       (if log_only_best then n = 1
        else exists params,
               getitem (cv_results_ gs) "params" = Ok params
               /\ n = List.length params)
       /\ let new := sweep_preamble env self gs w ++ List.concat blocks in
          trace w' = trace w ++ new
          /\ count is_create_run new = n
          /\ count is_set_terminated new = n
          /\ List.length blocks = n
          /\ child_blocks env self gs (PyStr.str (best_index_ gs))
               (trace w ++ sweep_preamble env self gs w) candidates blocks.
Proof.
  intros H. apply log_cross_validation_Ok in H.
  destruct H as (-> & candidates & blocks & Hc & Hb & Ht).
  split; [reflexivity|].
  pose proof (child_blocks_counts _ _ _ _ _ _ _ Hb) as (Hl & Hcr & Hst).
  exists (List.length candidates), candidates, blocks. split.
  - destruct log_only_best.
    + now subst candidates.
    + destruct Hc as (params & Hp & ->). exists params. split; [exact Hp|].
      now rewrite length_map, length_seq.
  - cbv zeta. rewrite !count_app, Hcr, Hst.
    destruct (sweep_preamble_counts env self gs w) as (-> & ->).
    now repeat split.
Qed.

Lemma one_child_run_per_candidate_witness :
  let best_only :=
    trace (snd (log_cross_validation Fixture.quiet Fixture.root Fixture.sweep
                  "svc" None true Fixture.w0)) in
  count is_create_run best_only = 1 /\ count is_set_terminated best_only = 1.
Proof.
  assert (Hrun : log_cross_validation Fixture.quiet Fixture.root Fixture.sweep
                   "svc" None true Fixture.w0
                 = (Ok Fixture.root,
                    snd (log_cross_validation Fixture.quiet Fixture.root
                           Fixture.sweep "svc" None true Fixture.w0)))
    by (vm_compute; reflexivity).
  destruct (one_child_run_per_candidate Fixture.quiet Fixture.root
              Fixture.sweep "svc" None true Fixture.w0 Fixture.root _ Hrun)
    as (_ & n & candidates & blocks & Hn & Ht & Hc & Hs & _).
  cbv zeta. cbv iota in Hn. subst n.
  rewrite Ht. rewrite !count_app.
  rewrite !count_app in Hc, Hs.
  split; [exact Hc | exact Hs].
Defined.

(** * Further properties *)

(** ** [Run.full_path] and [Run.list_artifacts] *)

Lemma concat_app_nonempty sep (a b : list string) :
  a <> [] -> b <> [] ->
  String.concat sep (a ++ b)
  = (String.concat sep a ++ sep ++ String.concat sep b)%string.
Proof.
  intros Ha Hb. induction a as [|x [|y a] IH]; [congruence| |].
  - destruct b; [congruence | reflexivity].
  - change (String.concat sep ((x :: y :: a) ++ b))
      with (x ++ sep ++ String.concat sep ((y :: a) ++ b))%string.
    rewrite IH by discriminate.
    change (String.concat sep (x :: y :: a))
      with (x ++ sep ++ String.concat sep (y :: a))%string.
    now rewrite !append_assoc.
Qed.

Lemma parse_absolute s :
  String.prefix "/" s = true ->
  String.eqb (PurePath.root (PurePath.parse s)) "" = false.
Proof.
  intros H. unfold PurePath.parse. cbn [PurePath.root]. rewrite H.
  now destruct (String.prefix "//" s && negb (String.prefix "///" s)).
Qed.

Lemma joinpath_absolute p q :
  String.eqb (PurePath.root p) "" = false ->
  String.eqb (PurePath.root (PurePath.joinpath p q)) "" = false.
Proof.
  intros H. unfold PurePath.joinpath.
  destruct (String.eqb (PurePath.root q) "") eqn:E; [exact H | exact E].
Qed.

(** X1. The path convention.  When the experiment's models path and the file
    name are written in normal form, the file name is relative and the run id
    is a single path component, [full_path] answers
    [<models path>/<run id>/artifacts/<file name>]. *)
Theorem full_path_convention self filename :
  let models := Experiment.models_path (experiment self) in
  PurePath.to_string (PurePath.parse models) = models ->
  PurePath.parts (PurePath.parse models) <> [] ->
  PurePath.parse (id self) = {| PurePath.root := ""; PurePath.parts := [id self] |} ->
  PurePath.to_string (PurePath.parse filename) = filename ->
  PurePath.root (PurePath.parse filename) = "" ->
  PurePath.parts (PurePath.parse filename) <> [] ->
  PurePath.to_string (full_path self (inl filename))
  = (models ++ "/" ++ id self ++ "/artifacts/" ++ filename)%string.
Proof.
  cbv zeta. intros Hm Hmp Hid Hf Hfr Hfp.
  unfold full_path, as_path. rewrite Hid.
  change (PurePath.parse "artifacts")
    with {| PurePath.root := ""; PurePath.parts := ["artifacts"] |}.
  unfold PurePath.joinpath at 3. cbn [PurePath.root PurePath.parts String.eqb].
  unfold PurePath.joinpath at 2. cbn [PurePath.root PurePath.parts String.eqb].
  unfold PurePath.joinpath. rewrite Hfr. cbn [PurePath.root PurePath.parts String.eqb].
  set (M := PurePath.parse (Experiment.models_path (experiment self))) in *.
  set (F := PurePath.parse filename) in *.
  unfold PurePath.to_string in *. cbn [PurePath.root PurePath.parts] in *.
  destruct (PurePath.parts M) as [|m ms] eqn:EM; [congruence|].
  destruct (PurePath.parts F) as [|f fs'] eqn:EF; [congruence|].
  rewrite Hfr in Hf. cbn [append] in Hf.
  destruct (((m :: ms) ++ [id self]) ++ ["artifacts"]) eqn:E1;
    [destruct ms; discriminate|]. rewrite <- E1. clear E1.
  destruct ((((m :: ms) ++ [id self]) ++ ["artifacts"]) ++ f :: fs') eqn:E2;
    [destruct ms; discriminate|]. rewrite <- E2. clear E2.
  rewrite !concat_app_nonempty; try discriminate;
    try (destruct ms; discriminate).
  rewrite Hf.
  change (String.concat "/" [id self]) with (id self).
  change (String.concat "/" ["artifacts"]) with "artifacts".
  rewrite <- Hm. rewrite !append_assoc. reflexivity.
Qed.

Lemma full_path_convention_witness :
  PurePath.to_string (full_path Fixture.root (inl "x.csv"))
  = "/exp/r1/artifacts/x.csv".
Proof.
  apply (full_path_convention Fixture.root "x.csv");
    first [reflexivity | discriminate].
Defined.

(** X2. An absolute file name is answered as it is: [full_path] then names
    nothing under the experiment's models path. *)
Theorem full_path_absolute_filename self filename :
  String.prefix "/" filename = true ->
  full_path self (inl filename) = PurePath.parse filename.
Proof.
  intros H. unfold full_path, as_path.
  unfold PurePath.joinpath at 1. now rewrite parse_absolute.
Qed.

Lemma full_path_absolute_filename_witness :
  PurePath.to_string (full_path Fixture.root (inl "/etc/passwd"))
  = "/etc/passwd".
Proof.
  rewrite (full_path_absolute_filename Fixture.root "/etc/passwd");
    reflexivity.
Defined.

(** X3. [list_artifacts(full_path=True)] answers one entry per artifact the
    service lists, in the same order and with the same [is_dir] and
    [file_size]; when the experiment's models path is absolute every answered
    path is a fixed point of [full_path], so resolving an entry again does
    not nest it a second time.  With [full_path=False] the service's list is
    answered as it is. *)
Theorem list_artifacts_full_paths svc self artifacts :
  client_list_artifacts svc (id self) = Ok artifacts ->
  String.prefix "/" (Experiment.models_path (experiment self)) = true ->
  list_artifacts svc self false = Ok artifacts
  /\ exists entries,
       list_artifacts svc self true = Ok entries
       /\ map FileInfo.is_dir entries = map FileInfo.is_dir artifacts
       /\ map FileInfo.file_size entries = map FileInfo.file_size artifacts
       /\ map FileInfo.path entries
          = map (fun fi => PathObj (full_path self (inr fi))) artifacts
       /\ Forall (fun entry =>
                    FileInfo.path entry = PathObj (full_path self (inr entry)))
            entries.
Proof.
  intros Hsvc Habs. unfold list_artifacts. rewrite Hsvc.
  split; [reflexivity|]. eexists. split; [reflexivity|].
  rewrite !map_map. cbn [FileInfo.is_dir FileInfo.file_size FileInfo.path].
  repeat split.
  apply Forall_forall. intros entry Hin. apply in_map_iff in Hin.
  destruct Hin as (fi & <- & _). cbn [FileInfo.path].
  set (p := full_path self (inr fi)).
  assert (Hp : String.eqb (PurePath.root p) "" = false).
  { unfold p, full_path. repeat apply joinpath_absolute.
    now apply parse_absolute. }
  unfold full_path. cbn [FileInfo.path as_path].
  unfold PurePath.joinpath at 1. now rewrite Hp.
Qed.

Lemma list_artifacts_full_paths_witness :
  let svc := {| search_runs := fun _ _ => Ok [];
                client_list_artifacts := fun _ =>
                  Ok [ {| FileInfo.path := Str "model";
                          FileInfo.is_dir := true;
                          FileInfo.file_size := None |};
                       {| FileInfo.path := Str "cv_results.csv";
                          FileInfo.is_dir := false;
                          FileInfo.file_size := Some 120%Z |} ] |} in
  exists entries,
    list_artifacts svc Fixture.root true = Ok entries
    /\ map FileInfo.is_dir entries = [true; false]
    /\ Forall (fun entry =>
                 FileInfo.path entry
                 = PathObj (full_path Fixture.root (inr entry))) entries.
Proof.
  cbv zeta.
  destruct (list_artifacts_full_paths
              {| search_runs := fun _ _ => Ok [];
                 client_list_artifacts := fun _ =>
                   Ok [ {| FileInfo.path := Str "model";
                           FileInfo.is_dir := true;
                           FileInfo.file_size := None |};
                        {| FileInfo.path := Str "cv_results.csv";
                           FileInfo.is_dir := false;
                           FileInfo.file_size := Some 120%Z |} ] |}
              Fixture.root _ eq_refl eq_refl)
    as (_ & entries & Hl & Hd & _ & _ & Hfix).
  exists entries. split; [exact Hl|]. split; [exact Hd | exact Hfix].
Defined.

(** ** [Run.childs] and [Run.start_run] *)

(** X4. [childs] searches the experiment of [self] for the very tag value
    that [start_run] writes into the runs it creates under [self]: for a run
    whose [id] is its service-side run id, the filter is
    [tags.mlflow.parentRunId = '<v>'] with [v] the parent-reference tag of
    the [create_run] request of [start_run]. *)
Theorem childs_searches_start_run_tag env svc self name tags w :
  consistent self ->
  exists d v,
    trace (snd (start_run env self name tags w))
    = trace w ++ [create_run (Experiment.id (experiment self)) d]
    /\ PyDict.get d MLFLOW_PARENT_RUN_ID = Some (VStr v)
    /\ childs svc self
       = match search_runs svc (Experiment.id (experiment self))
                 ("tags." ++ MLFLOW_PARENT_RUN_ID ++ " = '" ++ v ++ "'") with
         | Raise e => Raise e
         | Ok runs =>
             Ok (map (fun run => __init__ run (experiment self) None) runs)
         end.
Proof.
  intros Hc. destruct (start_run_issues env self name tags w) as (Ht & _).
  eexists _, (run_id (run self)). split; [exact Ht|]. split.
  - destruct (Nat.ltb 0 _).
    + rewrite get_set_other
        by (intro E; symmetry in E; now apply tag_keys_differ).
      apply get_set_same.
    + apply get_set_same.
  - unfold childs. rewrite <- Hc. reflexivity.
Qed.

Lemma childs_searches_start_run_tag_witness :
  let svc := {| search_runs := fun e f =>
                  if String.eqb f "tags.mlflow.parentRunId = 'r1'"
                  then Ok [ {| run_id := "run0" |} ] else Ok [];
                client_list_artifacts := fun _ => Ok [] |} in
  childs svc Fixture.root
  = Ok [__init__ {| run_id := "run0" |} Fixture.exp None].
Proof.
  cbv zeta.
  destruct (childs_searches_start_run_tag Fixture.quiet
              {| search_runs := fun e f =>
                   if String.eqb f "tags.mlflow.parentRunId = 'r1'"
                   then Ok [ {| run_id := "run0" |} ] else Ok [];
                 client_list_artifacts := fun _ => Ok [] |}
              Fixture.root None None Fixture.w0 eq_refl)
    as (d & v & Ht & Hd & Hchilds).
  assert (Hv : v = "r1").
  { vm_compute in Ht. inversion Ht; subst d.
    vm_compute in Hd. now inversion Hd. }
  subst v. rewrite Hchilds. reflexivity.
Defined.

(** X5. A run started under [self] and later found by [childs] comes back
    as a different handle: same experiment, same service-side run and id,
    but without the reference to its parent that [start_run] had set. *)
Theorem childs_drops_parent env svc self name tags w child w' runs :
  start_run env self name tags w = (Ok child, w') ->
  search_runs svc (Experiment.id (experiment self))
    ("tags.mlflow.parentRunId = '" ++ id self ++ "'") = Ok runs ->
  In (run child) runs ->
  parent child = Some self
  /\ exists found r,
       childs svc self = Ok found /\ In r found
       /\ List.length found = List.length runs
       /\ run r = run child /\ id r = id child
       /\ experiment r = experiment child
       /\ parent r = None.
Proof.
  intros Hs Hq Hin. unfold start_run in Hs. apply create_Ok in Hs.
  destruct Hs as (-> & _). split; [reflexivity|].
  unfold childs. rewrite Hq.
  eexists _, (__init__ (run (__init__ {| run_id := new_run_id env (trace w) |}
                              (experiment self) (Some self)))
                (experiment self) None).
  split; [reflexivity|]. split; [|rewrite length_map; now repeat split].
  apply in_map_iff. eexists. split; [reflexivity | exact Hin].
Qed.

Lemma childs_drops_parent_witness :
  let svc := {| search_runs := fun _ _ => Ok [ {| run_id := "run0" |} ];
                client_list_artifacts := fun _ => Ok [] |} in
  exists child found r,
    fst (start_run Fixture.quiet Fixture.root None None Fixture.w0) = Ok child
    /\ parent child = Some Fixture.root
    /\ childs svc Fixture.root = Ok found /\ In r found
    /\ id r = id child /\ parent r = None.
Proof.
  cbv zeta.
  destruct (childs_drops_parent Fixture.quiet
              {| search_runs := fun _ _ => Ok [ {| run_id := "run0" |} ];
                 client_list_artifacts := fun _ => Ok [] |}
              Fixture.root None None Fixture.w0
              (__init__ {| run_id := "run0" |} Fixture.exp (Some Fixture.root))
              (snd (start_run Fixture.quiet Fixture.root None None Fixture.w0))
              [ {| run_id := "run0" |} ] eq_refl eq_refl
              (or_introl eq_refl))
    as (Hp & found & r & Hc & Hin & _ & _ & Hid & _ & Hnone).
  exists (__init__ {| run_id := "run0" |} Fixture.exp (Some Fixture.root)),
         found, r.
  repeat split; assumption.
Defined.

(** ** [Run.create]: what it leaves alone *)

(** X6. Whether the service creates the run or raises, [create] issues one
    request, writes to no dict but the tags mapping it was handed, and
    leaves the disk and the log alone; in that mapping every entry under
    another key than the two tags of [create] stays and is sent along, and
    the mapping ends up equal to the tag set of the request. *)
Theorem create_keeps_other_tags env name experiment parent tags w :
  let l := default create_tags tags in
  let w' := snd (create env name experiment parent tags w) in
  exists d,
    trace w' = trace w ++ [create_run (Experiment.id experiment) d]
    /\ heap w' l = d
    /\ (forall k, k <> MLFLOW_PARENT_RUN_ID -> k <> MLFLOW_RUN_NAME ->
                  PyDict.get d k = PyDict.get (heap w l) k)
    /\ (forall l', l' <> l -> heap w' l' = heap w l')
    /\ fs w' = fs w /\ logs w' = logs w.
Proof.
  cbv zeta.
  destruct (create_issues env name experiment parent tags w)
    as (Ht & Hh & Hother & Hfs & Hlogs).
  eexists. split; [exact Ht|]. split; [exact Hh|].
  split; [|now repeat split].
  intros k Hp Hn. destruct (Nat.ltb 0 (String.length name)).
  - rewrite !get_set_other by congruence. reflexivity.
  - rewrite get_set_other by congruence. reflexivity.
Qed.

Lemma create_keeps_other_tags_witness :
  let w := {| trace := []; fs := [];
              heap := fun l => if Nat.eqb l 9 then [("features", VStr "pca")]
                               else [];
              logs := [] |} in
  exists d,
    trace (snd (create Fixture.quiet "baseline" Fixture.exp None (Some 9) w))
    = [create_run "7" d]
    /\ PyDict.get d "features" = Some (VStr "pca").
Proof.
  cbv zeta.
  destruct (create_keeps_other_tags Fixture.quiet "baseline" Fixture.exp None
              (Some 9)
              {| trace := []; fs := [];
                 heap := fun l => if Nat.eqb l 9
                                  then [("features", VStr "pca")] else [];
                 logs := [] |})
    as (d & Ht & _ & Hk & _).
  exists d. split; [exact Ht|].
  rewrite (Hk "features"); [reflexivity | discriminate | discriminate].
Defined.

(** ** What the logging methods never do *)

Lemma issues_only_quiet {A} P (m : M A) :
  (forall w, trace (snd (m w)) = trace w) -> issues_only P m.
Proof.
  intros H w. exists []. now rewrite H, app_nil_r.
Qed.

Lemma issues_only_extern env P c :
  P c = true -> issues_only P (extern env c).
Proof.
  intros H w. exists [c]. rewrite extern_trace. simpl. now rewrite H.
Qed.

Lemma issues_only_bind {A B} P (m : M A) (k : A -> M B) :
  issues_only P m -> (forall a, issues_only P (k a)) ->
  issues_only P (bind m k).
Proof.
  intros Hm Hk w. unfold bind.
  destruct (Hm w) as (c1 & Ht1 & Hp1).
  destruct (m w) as [[a|e] w1]; simpl in Ht1.
  - destruct (Hk a w1) as (c2 & Ht2 & Hp2).
    exists (c1 ++ c2). rewrite Ht2, Ht1, app_assoc, forallb_app, Hp1, Hp2.
    now split.
  - exists c1. now split.
Qed.

Lemma issues_only_for_each {A} P (xs : list A) (body : A -> M unit) :
  (forall x, issues_only P (body x)) -> issues_only P (for_each xs body).
Proof.
  intros Hb. induction xs as [|x xs IH]; simpl.
  - now apply issues_only_quiet.
  - apply issues_only_bind; [apply Hb | intros _; exact IH].
Qed.

Lemma issues_only_with_TempDir {A} P (body : string -> M A) :
  (forall tmp, issues_only P (body tmp)) ->
  issues_only P (with_TempDir body).
Proof.
  intros Hb w. unfold with_TempDir, mkdtemp.
  destruct (Hb (FS.mkdtemp_name (fs w))
               (set_fs (FS.mkdtemp_name (fs w) :: fs w) w))
    as (calls & Ht & Hp).
  destruct (body _ _) as [r w2]. simpl in Ht.
  exists calls. split; [|exact Hp].
  simpl. now destruct (FS.exists_ _ _).
Qed.

Lemma issues_only_try P (body handler : M unit) :
  issues_only P body -> issues_only P handler ->
  issues_only P (try_except_MlflowException body handler).
Proof.
  intros Hb Hh w. unfold try_except_MlflowException.
  destruct (Hb w) as (c1 & Ht1 & Hp1).
  destruct (body w) as [[u|e] w1]; simpl in Ht1.
  - exists c1. now split.
  - destruct (is_MlflowException e).
    + destruct (Hh w1) as (c2 & Ht2 & Hp2).
      exists (c1 ++ c2). rewrite Ht2, Ht1, app_assoc, forallb_app, Hp1, Hp2.
      now split.
    + exists c1. now split.
Qed.

Lemma keeps_state_quiet {A} (m : M A) :
  (forall w, fs (snd (m w)) = fs w /\ heap (snd (m w)) = heap w) ->
  keeps_state m.
Proof. intros H w. apply H. Qed.

Lemma keeps_state_extern env c :
  written c = [] -> keeps_state (extern env c).
Proof.
  intros H w. unfold extern.
  destruct (raises env (trace w) c); simpl; rewrite ?H; now split.
Qed.

Lemma keeps_state_bind {A B} (m : M A) (k : A -> M B) :
  keeps_state m -> (forall a, keeps_state (k a)) -> keeps_state (bind m k).
Proof.
  intros Hm Hk w. unfold bind. destruct (Hm w) as (Hf & Hh).
  destruct (m w) as [[a|e] w1]; simpl in Hf, Hh.
  - destruct (Hk a w1) as (Hf' & Hh'). rewrite Hf', Hh'. now split.
  - now split.
Qed.

Lemma keeps_state_for_each {A} (xs : list A) (body : A -> M unit) :
  (forall x, keeps_state (body x)) -> keeps_state (for_each xs body).
Proof.
  intros Hb. induction xs as [|x xs IH]; simpl.
  - now apply keeps_state_quiet.
  - apply keeps_state_bind; [apply Hb | intros _; exact IH].
Qed.

(** The routine steps of both invariants. *)
Ltac confined :=
  cbv zeta;
  repeat first
    [ apply issues_only_bind; [|intros ?]
    | apply issues_only_for_each; intros ?
    | apply issues_only_extern; cbn; rewrite ?String.eqb_refl; reflexivity
    | apply issues_only_quiet; intros ?; reflexivity
    | apply keeps_state_bind; [|intros ?]
    | apply keeps_state_for_each; intros ?
    | apply keeps_state_extern; reflexivity
    | apply keeps_state_quiet; intros ?; split; reflexivity ].

(** X7. Whatever happens (a lookup fails, the service raises, the call
    returns), [log_cv_run] has only issued requests that log a parameter, a
    metric or a tag into its own run: it creates and ends no run, uploads
    nothing, and leaves the disk and every dict, the tags mapping included,
    as they were. *)
Theorem log_cv_run_confined env self gs model_name i tags :
  issues_only (logs_into (id self))
    (log_cv_run env self gs model_name i tags)
  /\ keeps_state (log_cv_run env self gs model_name i tags).
Proof. split; unfold log_cv_run; confined. Qed.


(** ** Staging on disk *)

(** X9. [log_model] leaves no trace on disk: whether the flavor, the upload
    or the recording of the metadata succeed or raise, the disk after the
    call is the disk before it, the staging directory was a new one, and no
    dict was touched. *)
Theorem log_model_restores_disk env self model name flavor kwargs w :
  let w' := snd (log_model env self model name flavor kwargs w) in
  fs w' = fs w
  /\ heap w' = heap w
  /\ ~ In (FS.mkdtemp_name (fs w)) (fs w).
Proof.
  cbv zeta. split; [apply log_model_removes_staging|].
  split; [|apply mkdtemp_name_new].
  unfold log_model, bind, with_TempDir, mkdtemp, try_except_MlflowException,
    extern, logger, ret.
  cbn [fs set_fs trace issue].
  repeat match goal with
  | |- context [raises env ?t ?c] => destruct (raises env t c) eqn:?
  | |- context [is_MlflowException ?e] => destruct (is_MlflowException e) eqn:?
  end;
  cbn [fs set_fs trace issue written app fst snd heap logs];
  repeat match goal with
  | |- context [if ?b then _ else _] => destruct b
  end; reflexivity.
Qed.

Lemma prefix_slash_staged filename t extension :
  String.prefix "/" (staged_name filename t extension)
  = String.prefix "/" filename.
Proof.
  unfold staged_name. destruct filename as [|c rest]; [reflexivity|].
  cbn [append]. now rewrite !prefix_char.
Qed.



(** X11. An absolute file name escapes the staging directory: a returning
    [log_pickle] or [log_pandas] has then written and uploaded
    [<filename>-<timestamp>.<extension>] itself, at the place the caller
    named, and the directory it made stays empty on disk. *)
Theorem absolute_filename_escapes_staging env self filename w :
  String.prefix "/" filename = true ->
  (forall data r w',
     log_pickle env self data filename w = (Ok r, w') ->
     let p := staged_name filename (now env (trace w)) "pkl" in
     trace w' = trace w ++ [open_wb p; pickle_dump data p;
                            log_artifact (id self) p]
     /\ fs w' = p :: FS.mkdtemp_name (fs w) :: fs w)
  /\ (forall df r w',
        log_pandas env self df filename w = (Ok r, w') ->
        let p := staged_name filename (now env (trace w)) "csv" in
        trace w' = trace w ++ [to_csv df p; log_artifact (id self) p]
        /\ fs w' = p :: FS.mkdtemp_name (fs w) :: fs w).
Proof.
  intros Habs.
  assert (Hjoin : forall tmp extension,
             PyStr.os_path_join tmp
               (staged_name filename (now env (trace w)) extension)
             = staged_name filename (now env (trace w)) extension).
  { intros tmp extension. unfold PyStr.os_path_join.
    now rewrite prefix_slash_staged, Habs. }
  split.
  - intros data r w' H. apply log_pickle_Ok in H. cbv zeta in H.
    destruct H as (_ & Ht & Hf & _). rewrite Hjoin in Ht, Hf. now split.
  - intros df r w' H. apply log_pandas_Ok in H. cbv zeta in H.
    destruct H as (_ & Ht & Hf & _). rewrite Hjoin in Ht, Hf. now split.
Qed.

Lemma absolute_filename_escapes_staging_witness :
  trace (snd (log_pickle Fixture.quiet Fixture.root (VObj "scaler")
                "/srv/scaler" Fixture.w0))
  = [open_wb "/srv/scaler-2021-03-09T14.05.07.pkl";
     pickle_dump (VObj "scaler") "/srv/scaler-2021-03-09T14.05.07.pkl";
     log_artifact "r1" "/srv/scaler-2021-03-09T14.05.07.pkl"].
Proof.
  destruct (absolute_filename_escapes_staging Fixture.quiet Fixture.root
              "/srv/scaler" Fixture.w0 eq_refl) as (H & _).
  destruct (H (VObj "scaler") Fixture.root
              (snd (log_pickle Fixture.quiet Fixture.root (VObj "scaler")
                      "/srv/scaler" Fixture.w0)) eq_refl) as (Ht & _).
  exact Ht.
Defined.

Lemma digit_no_slash n : Ascii.eqb (PyStr.digit n) "/" = false.
Proof.
  destruct (digit_cases n) as (m & Hm & ->).
  do 10 (destruct m as [|m]; [vm_compute; reflexivity|]). lia.
Qed.

Lemma zero_padded_no_slash k n : no_char "/" (PyStr.zero_padded k n) = true.
Proof.
  revert n. induction k as [|k IH]; intros n; [reflexivity|].
  change (PyStr.zero_padded (S k) n)
    with (PyStr.zero_padded k (n / 10) ++ String (PyStr.digit n) "")%string.
  rewrite no_char_app, IH. cbn [no_char andb].
  now rewrite digit_no_slash.
Qed.

Lemma zero_padded_length k n : String.length (PyStr.zero_padded k n) = k.
Proof.
  revert n. induction k as [|k IH]; intros n; [reflexivity|].
  change (PyStr.zero_padded (S k) n)
    with (PyStr.zero_padded k (n / 10) ++ String (PyStr.digit n) "")%string.
  rewrite length_append, IH. simpl. lia.
Qed.

(** X12. The time stamp [_temp_file] puts into a file name is safe for a
    file name at every reading of the clock: nineteen characters, none of
    them a colon or a slash. *)
Theorem timestamp_is_filename_safe t :
  let stamp := PyStr.replace ":" "." (PyStr.split_head "." (isoformat t)) in
  String.length stamp = 19
  /\ no_char ":" stamp = true
  /\ no_char "/" stamp = true.
Proof.
  cbv zeta. rewrite timestamp_form. unfold iso_seconds_dotted.
  split; [|split].
  - rewrite !length_append, !zero_padded_length. reflexivity.
  - rewrite !no_char_app, !zero_padded_no_colon. reflexivity.
  - rewrite !no_char_app, !zero_padded_no_slash. reflexivity.
Qed.

(** ** [Run.log_cv_run]: lookups *)

Lemma index_out_of_range {V} (xs : list V) i :
  (i < - Z.of_nat (List.length xs) \/ Z.of_nat (List.length xs) <= i)%Z ->
  index xs i = Raise IndexError.
Proof.
  intros H. unfold index.
  destruct (Z.ltb_spec i 0);
    match goal with
    | |- context [(?a && ?b)%bool] =>
        assert (Hb : (a && b)%bool = false); [|now rewrite Hb]
    end; apply andb_false_iff;
    destruct H; [left | right | left | right];
    first [apply Z.leb_gt; lia | apply Z.ltb_ge; lia].
Qed.

Lemma index_negative {V} (xs : list V) k :
  (0 < k <= Z.of_nat (List.length xs))%Z ->
  index xs (- k) = index xs (Z.of_nat (List.length xs) - k).
Proof.
  intros H. unfold index.
  destruct (Z.ltb_spec (- k) 0); [|lia].
  destruct (Z.ltb_spec (Z.of_nat (List.length xs) - k) 0); [lia|].
  now replace (- k + Z.of_nat (List.length xs))%Z
    with (Z.of_nat (List.length xs) - k)%Z by lia.
Qed.

(** X13. The first hyperparameter decides early.  Once the fold count is
    logged, [log_cv_run] raises [KeyError('param_<k>')] if the results have
    no column for the first key [k] of the grid, and [IndexError] if that
    column is there but the candidate index lies outside it (at or beyond its
    length, or below minus its length); in both cases the fold count is the
    only request it has issued. *)
Theorem log_cv_run_lookup_errors env self gs model_name i tags w k vs rest :
  raises env (trace w) (log_param (id self) "folds" (cv gs)) = None ->
  param_grid gs = (k, vs) :: rest ->
  let out := log_cv_run env self gs model_name i tags w in
  match PyDict.get (cv_results_ gs) ("param_" ++ k) with
  | None =>
      fst out = Raise (KeyError ("param_" ++ k))
      /\ trace (snd out) = trace w ++ [log_param (id self) "folds" (cv gs)]
  | Some column =>
      (i < - Z.of_nat (List.length column)
       \/ Z.of_nat (List.length column) <= i)%Z ->
      fst out = Raise IndexError
      /\ trace (snd out) = trace w ++ [log_param (id self) "folds" (cv gs)]
  end.
Proof.
  intros Hfolds Hgrid. cbv zeta.
  unfold log_cv_run, bind, extern, logger, lift, getitem.
  rewrite Hfolds, Hgrid. cbn [PyDict.keys map fst for_each bind].
  unfold bind. cbn [trace fs heap logs set_fs issue written app].
  destruct (PyDict.get (cv_results_ gs) ("param_" ++ k)) as [column|].
  - intros Hout. rewrite (index_out_of_range column i Hout). now split.
  - now split.
Qed.

Lemma log_cv_run_lookup_errors_witness :
  fst (log_cv_run Fixture.quiet Fixture.root Fixture.sweep "svc" 2 None
         Fixture.w0) = Raise IndexError
  /\ trace (snd (log_cv_run Fixture.quiet Fixture.root Fixture.sweep "svc" 2
                   None Fixture.w0))
     = [log_param "r1" "folds" (VInt 5)].
Proof.
  apply (log_cv_run_lookup_errors Fixture.quiet Fixture.root Fixture.sweep
           "svc" 2 None Fixture.w0 "C" [VInt 1; VInt 10] [] eq_refl eq_refl).
  right. simpl. lia.
Defined.

Lemma Forall2_Forall_l {A B} (R : A -> B -> Prop) (P : A -> Prop) xs ys :
  (forall x y, R x y -> P x) -> Forall2 R xs ys -> Forall P xs.
Proof. intros H. induction 1; constructor; eauto. Qed.

(** X14. [log_cv_run] returns only if the results hold, for the candidate,
    a value in the column [param_<k>] of every key [k] of the grid and, for
    every column whose name contains [mean_test], a value in that column and
    in the one named by rewriting each [mean] of its name to [std]. *)
Theorem log_cv_run_needs_columns env self gs model_name i tags w r w' :
  log_cv_run env self gs model_name i tags w = (Ok r, w') ->
  Forall (fun k => exists v,
            cell (cv_results_ gs) ("param_" ++ k) i = Ok v)
    (PyDict.keys (param_grid gs))
  /\ Forall (fun score =>
               (exists m, cell (cv_results_ gs) score i = Ok m)
               /\ exists s,
                    cell (cv_results_ gs) (PyStr.replace "mean" "std" score) i
                    = Ok s)
       (filter (PyStr.contains "mean_test") (PyDict.keys (cv_results_ gs))).
Proof.
  intros H. apply log_cv_run_Ok in H.
  destruct H as (_ & calls & _ & (ps & ms & ts & _ & HP & HM & _)).
  split.
  - eapply Forall2_Forall_l; [|exact HP].
    intros x cs (v & Hv & _). now exists v.
  - eapply Forall2_Forall_l; [|exact HM].
    intros x cs (m & s & Hm & Hs & _). split; eauto.
Qed.

Lemma log_cv_run_needs_columns_witness :
  Forall (fun score =>
            (exists m, cell (cv_results_ Fixture.sweep) score 1 = Ok m)
            /\ exists s,
                 cell (cv_results_ Fixture.sweep)
                   (PyStr.replace "mean" "std" score) 1 = Ok s)
    ["mean_test_score"].
Proof.
  exact (proj2 (log_cv_run_needs_columns Fixture.quiet Fixture.root
                  Fixture.sweep "svc" 1 None Fixture.w0 Fixture.root
                  (snd (log_cv_run Fixture.quiet Fixture.root Fixture.sweep
                          "svc" 1 None Fixture.w0)) eq_refl)).
Defined.

Lemma bind_ext {A B} (m m' : M A) (k k' : A -> M B) :
  (forall w, m w = m' w) -> (forall a w, k a w = k' a w) ->
  forall w, bind m k w = bind m' k' w.
Proof.
  intros Hm Hk w. unfold bind. rewrite Hm.
  destruct (m' w) as [[a|e] w1]; [apply Hk | reflexivity].
Qed.

Lemma for_each_ext {A} (xs : list A) (f g : A -> M unit) :
  (forall x w, f x w = g x w) ->
  forall w, for_each xs f w = for_each xs g w.
Proof.
  intros H. induction xs as [|x xs IH]; intros w; simpl; [reflexivity|].
  apply bind_ext; [apply H | intros _; exact IH].
Qed.

Lemma lookup_ext cv_results key i j (k k' : PyVal -> M unit) :
  (forall key column,
     PyDict.get cv_results key = Some column ->
     index column i = index column j) ->
  (forall v w, k v w = k' v w) ->
  forall w,
    (column <- lift (getitem cv_results key) ;;
     value <- lift (index column i) ;; k value) w
    = (column <- lift (getitem cv_results key) ;;
       value <- lift (index column j) ;; k' value) w.
Proof.
  intros H Hk w. unfold bind, lift, getitem.
  destruct (PyDict.get cv_results key) as [column|] eqn:E; [|reflexivity].
  rewrite (H _ _ E).
  destruct (index column j); [apply Hk | reflexivity].
Qed.

(** X15. [log_cv_run] takes a negative candidate index the way Python
    indexes: when every column of the results has [n] entries, index [-k]
    (for [0 < k <= n]) behaves in every respect as index [n - k]; [-1] logs
    the last candidate. *)
Theorem log_cv_run_negative_index env self gs model_name tags n k w :
  (forall key column,
     PyDict.get (cv_results_ gs) key = Some column ->
     List.length column = n) ->
  (0 < k <= Z.of_nat n)%Z ->
  log_cv_run env self gs model_name (- k) tags w
  = log_cv_run env self gs model_name (Z.of_nat n - k) tags w.
Proof.
  intros Hlen Hk.
  assert (Hidx : forall key column,
             PyDict.get (cv_results_ gs) key = Some column ->
             index column (- k) = index column (Z.of_nat n - k)).
  { intros key column Hget. rewrite <- (Hlen _ _ Hget).
    apply index_negative. rewrite (Hlen _ _ Hget). exact Hk. }
  unfold log_cv_run. cbv zeta.
  apply bind_ext; [reflexivity | intros _ ?].
  apply bind_ext; [reflexivity | intros _ ?].
  apply bind_ext.
  { apply for_each_ext. intros param ?.
    apply lookup_ext; [exact Hidx | reflexivity]. }
  intros _ ?.
  apply bind_ext; [reflexivity | intros _ ?].
  apply bind_ext; [|reflexivity].
  apply for_each_ext. intros score ?.
  apply lookup_ext; [exact Hidx | intros v ?].
  apply bind_ext; [reflexivity | intros _ ?].
  apply lookup_ext; [exact Hidx | reflexivity].
Qed.

Lemma log_cv_run_negative_index_witness :
  log_cv_run Fixture.quiet Fixture.root Fixture.sweep "svc" (-1) None
    Fixture.w0
  = log_cv_run Fixture.quiet Fixture.root Fixture.sweep "svc" 1 None
      Fixture.w0.
Proof.
  apply (log_cv_run_negative_index Fixture.quiet Fixture.root Fixture.sweep
           "svc" None 2 1 Fixture.w0); [|lia].
  intros key column H. simpl in H.
  repeat match type of H with
  | (if ?b then _ else _) = _ => destruct b; [now inversion H|]
  end.
  discriminate.
Defined.

(** ** [Run.log_cross_validation]: runs left behind *)

Lemma issues_only_weaken {A} (P Q : Call -> bool) (m : M A) :
  (forall c, P c = true -> Q c = true) -> issues_only P m -> issues_only Q m.
Proof.
  intros HPQ Hm w. destruct (Hm w) as (calls & Ht & Hp).
  exists calls. split; [exact Ht|].
  rewrite forallb_forall in *. auto.
Qed.

Lemma issues_only_bind_never {A B} P (m : M A) (k : A -> M B) :
  issues_only P m -> (forall w r w', m w <> (Ok r, w')) ->
  issues_only P (bind m k).
Proof.
  intros Hm Hnever w. unfold bind. destruct (Hm w) as (calls & Ht & Hp).
  destruct (m w) as [[a|e] w1] eqn:E; [now apply Hnever in E|].
  exists calls. now split.
Qed.

Lemma log_model_stages env self model name flavor kwargs :
  issues_only (stages_for (id self))
    (log_model env self model name flavor kwargs).
Proof.
  unfold log_model. apply issues_only_bind; [|intros ?; confined].
  apply issues_only_with_TempDir. intros tmp. cbv zeta.
  apply issues_only_bind; [confined | intros ?].
  apply issues_only_bind; [confined | intros ?].
  apply issues_only_try; confined.
Qed.

Lemma log_pandas_stages env self df filename :
  issues_only (stages_for (id self)) (log_pandas env self df filename).
Proof.
  unfold log_pandas. apply issues_only_bind; [|intros ?; confined].
  apply issues_only_quiet. intros w. now rewrite _temp_file_spec.
Qed.

Lemma log_cv_run_logs env self gs model_name i tags :
  issues_only (logs_into (id self)) (log_cv_run env self gs model_name i tags).
Proof. unfold log_cv_run; confined. Qed.

Lemma start_run_creates env self name tags :
  issues_only is_create_run (start_run env self name tags).
Proof.
  intros w. destruct (start_run_issues env self name tags w) as (Ht & _).
  eexists. split; [exact Ht | reflexivity].
Qed.

Lemma cv_run_calls_std_column rid gs i entries calls score :
  cv_run_calls rid gs i entries calls ->
  In score (PyDict.keys (cv_results_ gs)) ->
  PyStr.contains "mean_test" score = true ->
  PyDict.get (cv_results_ gs) (PyStr.replace "mean" "std" score) <> None.
Proof.
  intros (ps & ms & ts & _ & _ & HM & _) Hin Hc.
  assert (Hs : In score
                 (filter (PyStr.contains "mean_test")
                    (PyDict.keys (cv_results_ gs))))
    by (apply filter_In; now split).
  clear Hin Hc. induction HM as [|x cs xs css Hx _ IH]; [contradiction|].
  destruct Hs as [->|Hs]; [|now apply IH].
  destruct Hx as (m & sd & _ & Hstd & _).
  unfold cell, getitem in Hstd.
  now destruct (PyDict.get (cv_results_ gs) (PyStr.replace "mean" "std" score)).
Qed.

Lemma count_zero_forallb kind calls :
  forallb (fun c => negb (kind c)) calls = true -> count kind calls = 0.
Proof.
  unfold count. induction calls as [|c calls IH]; simpl; [reflexivity|].
  intros H. apply andb_prop in H. destruct H as (Hc & Hrest).
  apply negb_true_iff in Hc. rewrite Hc. now apply IH.
Qed.

(** X16. No clean-up after a failed candidate.  When the results have a
    column whose name contains [mean_test] but no column under that name
    with each [mean] rewritten to [std], [log_cv_run] cannot return, and
    [log_cross_validation] then never ends a run: whatever else succeeds or
    fails, it issues no [set_terminated], so a child run it has created stays
    open on the service; with [log_only_best] set it does not return. *)
Theorem failed_candidate_is_never_ended env self gs model_name tags
    log_only_best w score :
  In score (PyDict.keys (cv_results_ gs)) ->
  PyStr.contains "mean_test" score = true ->
  PyDict.get (cv_results_ gs) (PyStr.replace "mean" "std" score) = None ->
  let out :=
    log_cross_validation env self gs model_name tags log_only_best w in
  (exists calls,
     trace (snd out) = trace w ++ calls /\ count is_set_terminated calls = 0)
  /\ (log_only_best = true -> forall r, fst out <> Ok r).
Proof.
  intros Hin Hc Hnone. cbv zeta.
  assert (Hnever : forall child i t w0 r w',
             log_cv_run env child gs model_name i t w0 <> (Ok r, w')).
  { intros child i t w0 r w' H. apply log_cv_run_Ok in H.
    destruct H as (_ & calls & _ & Hcalls).
    now apply (cv_run_calls_std_column _ _ _ _ _ score) in Hcalls. }
  split.
  - assert (H : issues_only (fun c => negb (is_set_terminated c))
                  (log_cross_validation env self gs model_name tags
                     log_only_best)).
    { assert (Hround : forall i,
                 issues_only (fun c => negb (is_set_terminated c))
                   (child <- start_run env self
                               (Some (PyStr.str (best_index_ gs))) None ;;
                    child <- log_cv_run env child gs model_name i
                               (Some (default log_cross_validation_tags tags)) ;;
                    end_ env child)).
      { intros i. apply issues_only_bind.
        - eapply issues_only_weaken; [|apply start_run_creates].
          now intros [].
        - intros child. apply issues_only_bind_never; [|apply Hnever].
          eapply issues_only_weaken; [|apply log_cv_run_logs].
          now intros []. }
      unfold log_cross_validation. cbv zeta.
      apply issues_only_bind; [confined | intros ?].
      apply issues_only_bind;
        [eapply issues_only_weaken; [|apply log_model_stages]; now intros []
        | intros ?].
      apply issues_only_bind; [confined | intros ?].
      apply issues_only_bind;
        [eapply issues_only_weaken; [|apply log_pandas_stages]; now intros []
        | intros ?].
      apply issues_only_bind; [|intros ?; confined].
      destruct log_only_best; [apply Hround|].
      apply issues_only_bind; [confined | intros params].
      apply issues_only_for_each. intros i. apply Hround. }
    destruct (H w) as (calls & Ht & Hp).
    exists calls. split; [exact Ht | now apply count_zero_forallb].
  - intros -> r Hr.
    destruct (log_cross_validation env self gs model_name tags true w)
      as [res w'] eqn:E.
    simpl in Hr. subst res.
    unfold log_cross_validation in E. inv_ok.
    match goal with
    | H : log_cv_run _ _ _ _ _ _ _ = (Ok _, _) |- _ => now apply Hnever in H
    end.
Qed.

Lemma failed_candidate_is_never_ended_witness :
  exists calls,
    trace (snd (log_cross_validation Fixture.quiet Fixture.root
                  Fixture.sweep_mse "svr" None false Fixture.w0)) = calls
    /\ count is_create_run calls = 1
    /\ count is_set_terminated calls = 0.
Proof.
  destruct (failed_candidate_is_never_ended Fixture.quiet Fixture.root
              Fixture.sweep_mse "svr" None false Fixture.w0
              "mean_test_mean_squared_error")
    as ((calls & Ht & Hz) & _);
    [vm_compute; auto 10 | vm_compute; reflexivity | vm_compute; reflexivity |].
  assert (Hc : calls
               = trace (snd (log_cross_validation Fixture.quiet Fixture.root
                               Fixture.sweep_mse "svr" None false Fixture.w0)))
    by (rewrite Ht; reflexivity).
  exists calls. split; [now symmetry|]. split; [|exact Hz].
  rewrite Hc. vm_compute. reflexivity.
Defined.

(** ** [Run.log_cross_validation] and later runs *)

Lemma child_round_heap env self gs model_name name i tags w u w' :
  name <> EmptyString ->
  (child <- start_run env self (Some name) None ;;
   child <- log_cv_run env child gs model_name i (Some tags) ;;
   end_ env child) w = (Ok u, w') ->
  PyDict.get (heap w' start_run_tags) MLFLOW_RUN_NAME = Some (VStr name).
Proof.
  intros Hname H. inv_ok.
  pose proof (start_run_issues env self (Some name) None w) as Hs.
  cbv zeta in Hs. destruct Hs as (_ & Hh & _).
  rewrite (nonempty_length _ Hname) in Hh.
  match goal with
  | H : start_run _ _ _ _ _ = (Ok _, ?w1) |- _ =>
      rewrite H in Hh; cbn [snd default] in Hh
  end.
  match goal with
  | H : log_cv_run _ _ _ _ _ _ _ = (Ok _, _) |- _ =>
      apply log_cv_run_Ok in H; destruct H as (_ & calls & (_ & _ & Hh1) & _)
  end.
  match goal with
  | H : end_ _ _ _ = (Ok _, _) |- _ =>
      unfold end_ in H; apply extern_Ok in H;
      destruct H as (_ & _ & _ & Hh2 & _)
  end.
  rewrite Hh2, Hh1, Hh. apply get_set_same.
Qed.

Lemma children_loop_heap env self gs model_name name tags xs :
  name <> EmptyString -> xs <> [] ->
  forall w u w',
    for_each xs (fun i =>
      child <- start_run env self (Some name) None ;;
      child <- log_cv_run env child gs model_name (Z.of_nat i) (Some tags) ;;
      end_ env child) w = (Ok u, w') ->
    PyDict.get (heap w' start_run_tags) MLFLOW_RUN_NAME = Some (VStr name).
Proof.
  intros Hname. induction xs as [|x xs IH]; intros Hne w u w' H; [congruence|].
  simpl in H. apply bind_Ok in H. destruct H as (a & w1 & Hx & Hxs).
  destruct xs as [|y xs].
  - simpl in Hxs. apply ret_Ok in Hxs. destruct Hxs as (_ & ->).
    eapply child_round_heap; eassumption.
  - eapply IH; [discriminate | exact Hxs].
Qed.

(** X17. The sweep names later runs.  [log_cross_validation] starts its
    child runs without a tags argument, so their name stays in the default
    mapping of [start_run]: once a call that created a child run has
    returned, a run started under any run with neither name nor tags is
    sent to the service under the name [str(best_index_)] of that sweep. *)
Theorem sweep_names_later_runs env self gs model_name tags log_only_best
    w r w' other :
  log_cross_validation env self gs model_name tags log_only_best w
  = (Ok r, w') ->
  (log_only_best = true
   \/ exists p ps, PyDict.get (cv_results_ gs) "params" = Some (p :: ps)) ->
  exists d,
    trace (snd (start_run env other None None w'))
    = trace w' ++ [create_run (Experiment.id (experiment other)) d]
    /\ PyDict.get d MLFLOW_RUN_NAME
       = Some (VStr (PyStr.str (best_index_ gs))).
Proof.
  intros H Hchild.
  assert (Hheap : PyDict.get (heap w' start_run_tags) MLFLOW_RUN_NAME
                  = Some (VStr (PyStr.str (best_index_ gs)))).
  { unfold log_cross_validation in H. cbv zeta in H.
    destruct log_only_best.
    - inv_ok.
      eapply (child_round_heap env self gs model_name _ (best_index_ gs));
        [apply str_nonempty|].
      unfold bind at 1.
      match goal with
      | H : start_run _ _ _ _ _ = _ |- _ => rewrite H
      end.
      unfold bind at 1.
      match goal with
      | H : log_cv_run _ _ _ _ _ _ _ = _ |- _ => rewrite H
      end.
      eassumption.
    - destruct Hchild as [|(p & ps & Hp)]; [discriminate|].
      inv_ok.
      match goal with
      | H : getitem _ _ = Ok _ |- _ =>
          unfold getitem in H; rewrite Hp in H; inversion H; subst; clear H
      end.
      match goal with
      | H : for_each _ _ _ = (Ok _, _) |- _ =>
          eapply children_loop_heap in H;
          [exact H | apply str_nonempty | discriminate]
      end. }
  destruct (start_run_issues env other None None w') as (Ht & _).
  cbn [default Nat.ltb Nat.leb String.length] in Ht.
  eexists. split; [exact Ht|].
  rewrite get_set_other by (intro E; now apply tag_keys_differ).
  exact Hheap.
Qed.

Lemma sweep_names_later_runs_witness :
  exists d,
    trace (snd (start_run Fixture.quiet Fixture.root None None
                 (snd (log_cross_validation Fixture.quiet Fixture.root
                         Fixture.sweep "svc" None true Fixture.w0))))
    = trace (snd (log_cross_validation Fixture.quiet Fixture.root
                    Fixture.sweep "svc" None true Fixture.w0))
      ++ [create_run "7" d]
    /\ PyDict.get d MLFLOW_RUN_NAME = Some (VStr "1").
Proof.
  assert (Hrun : log_cross_validation Fixture.quiet Fixture.root Fixture.sweep
                   "svc" None true Fixture.w0
                 = (Ok Fixture.root,
                    snd (log_cross_validation Fixture.quiet Fixture.root
                           Fixture.sweep "svc" None true Fixture.w0)))
    by (vm_compute; reflexivity).
  exact (sweep_names_later_runs Fixture.quiet Fixture.root Fixture.sweep "svc"
           None true Fixture.w0 Fixture.root _ Fixture.root Hrun
           (or_introl eq_refl)).
Defined.
